(** * ALFA dataset tools: the [Topic] class of [alfa-cpp/include/topic.h]

    A shallow embedding of [alfa::Topic] (loading one CSV topic file,
    normalising its header, tracking column widths, printing) and the
    properties of its specification.

    Conventions of the embedding.
    - A C++ [int] is a [Z]; arithmetic on values that are not container
      sizes goes through [to_int], the two's complement wrap-around to 32
      bits.  Sizes of strings and vectors held in memory are taken to fit in
      an [int], so a cast [(int)v.size()] is [Z.of_nat (length v)].
    - [std::string] is [string], [std::vector<T>] is [list T], indexed with
      stdpp's [!!]; an access that C++ leaves undefined or that throws makes
      the printing functions return [None].
    - A [const std::string &] parameter that a member function reads after
      it has assigned to the topic's own strings is a [StringRef]: what it
      reads depends on what it is bound to.
    - [std::cout] and [std::cerr] are the lists of the lines written to them
      (every statement of the source that writes ends its line with
      [std::endl]).
    - [commons.h] and [message.h] are not part of the verified file: what
      [topic.h] uses of them is the interface [Externals]. *)

From Stdlib Require Import ZArith Ascii String DecimalString.
From stdpp Require Import base option list strings.

Local Open Scope Z_scope.

(** ** Machine integers *)

Definition INT_MAX : Z := 2147483647.
Definition INT_MIN : Z := -2147483648.

(** Conversion of a mathematical integer to a 32-bit signed [int]. *)
Definition to_int (z : Z) : Z := (z + 2147483648) mod 4294967296 - 2147483648.

(** [std::max] on [int]. *)
Definition std_max (a b : Z) : Z := if a <? b then b else a.

(** ** Strings *)

Definition VecString := list string.

(** [s.substr(pos, n)] for [pos <= s.size()] (beyond that C++ throws
    [std::out_of_range]; the source never calls it there). *)
Definition substr (s : string) (pos n : nat) : string := String.substring pos n s.

(** [s.substr(pos)]: the rest of the string from [pos]. *)
Definition substr_from (s : string) (pos : nat) : string :=
  String.substring pos (String.length s - pos) s.

(** [std::string(n, c)]. *)
Fixpoint string_fill (n : nat) (c : ascii) : string :=
  match n with
  | O => EmptyString
  | S n' => String c (string_fill n' c)
  end.

(** [os << std::setw(w) << s]: right-justified in a field of [w] characters,
    filled with spaces; a field that is too narrow does not truncate. *)
Definition setw (w : Z) (s : string) : string :=
  string_fill (Z.to_nat (w - Z.of_nat (String.length s))) " "%char +:+ s.

(** [os << i] for an [int]. *)
Definition int_to_string (i : Z) : string := NilZero.string_of_int (Z.to_int i).

(** What a [const std::string &] parameter of a member function is bound
    to: a string of the caller's own, or a string member of the topic the
    function is called on, which then changes value when the function
    assigns to that member.  (A reference to an element of one of the
    topic's vectors would dangle once the vector is cleared; C++ leaves
    such a call undefined and it has no case here.) *)
Inductive StringRef :=
  | OwnString (s : string)
  | TopicName
  | TopicFileName.

(** A string where a [StringRef] is expected is a string of the caller's
    own. *)
Coercion OwnString : string >-> StringRef.

(** ** The collaborators of [topic.h] *)

(** What [Message::TokensToMessage] hands back: the message and, through its
    reference parameters, the widths the row needs. *)
Record RowWidths (M : Type) := mkRowWidths {
  row_msg : M;
  l_seq : Z;
  l_stamp : Z;
  l_frid : Z;
  l_fields : list Z
}.
Arguments mkRowWidths {M} _ _ _ _ _.
Arguments row_msg {M} _.
Arguments l_seq {M} _.
Arguments l_stamp {M} _.
Arguments l_frid {M} _.
Arguments l_fields {M} _.

(** The members of [Commons] (commons.h) and of [Message] (message.h) that
    [topic.h] calls. *)
Class Externals := {
  (* commons.h *)
  CSVDelimiter : ascii;
  CSVFieldsPrefix : string;
  FaultTopicPrefix : string;
  Tokenize : string -> ascii -> VecString;
  (* message.h *)
  Message : Type;
  Message_TokensToMessage : VecString -> VecString -> RowWidths Message;
  DateTime_ToString : Message -> string;
  Message_ToString : Message -> Z -> Z -> Z -> list Z -> bool -> string -> string
}.

(** ** The class [Topic] *)

Section TopicClass.
Context {ext : Externals}.

Record Topic := mkTopic {
  Name : string;
  FileName : string;
  FieldLabels : VecString;
  Messages : list Message;
  is_initialized : bool;
  is_fault_topic : bool;
  len_seqid : Z;
  len_stamp : Z;
  len_frameid : Z;
  len_fields : list Z;
  orig_field_labels : VecString;
  has_header : bool
}.

Definition hdr_ind : string := "Index".
Definition hdr_datetime : string := "Date/Time Stamp".
Definition hdr_seq : string := "SeqID".
Definition hdr_stamp : string := "Time Stamp".
Definition hdr_frid : string := "Frame".

(** [Topic::Clear]. *)
Definition Clear (t : Topic) : Topic :=
  {| Name := ""; FileName := ""; FieldLabels := []; Messages := [];
     is_initialized := false; is_fault_topic := false;
     len_seqid := 0; len_stamp := 0; len_frameid := 0; len_fields := [];
     orig_field_labels := []; has_header := false |}.

(** A freshly constructed topic that loaded nothing:
    [Topic("", topic_name)]. *)
Definition new_Topic (topic_name : string) : Topic :=
  {| Name := topic_name; FileName := ""; FieldLabels := []; Messages := [];
     is_initialized := false; is_fault_topic := false;
     len_seqid := 0; len_stamp := 0; len_frameid := 0; len_fields := [];
     orig_field_labels := []; has_header := false |}.

Definition IsInitialized (t : Topic) : bool := is_initialized t.
Definition IsFaultTopic (t : Topic) : bool := is_fault_topic t.
Definition HasHeaderField (t : Topic) : bool := has_header t.

(** The loop of [Topic::TokensToMessage] over [l_fields], from index [i]
    on: [rest] is what is left of [l_fields] at [i]. *)
Fixpoint merge_row_widths (i : nat) (rest : list Z) (len_fields : list Z) : list Z :=
  match rest with
  | [] => len_fields
  | w :: rest' =>
      merge_row_widths (S i) rest'
        (if (i =? length len_fields)%nat then len_fields ++ [w]
         else match len_fields !! i with
              | Some old => <[i := std_max old w]> len_fields
              | None => len_fields
              end)
  end.

(** [Topic::TokensToMessage]: the message of a row, and the topic with its
    widths raised to those of the row. *)
Definition TokensToMessage (tokens : VecString) (t : Topic) : Message * Topic :=
  let r := Message_TokensToMessage tokens (orig_field_labels t) in
  (row_msg r,
   {| Name := Name t; FileName := FileName t; FieldLabels := FieldLabels t;
      Messages := Messages t;
      is_initialized := is_initialized t; is_fault_topic := is_fault_topic t;
      len_seqid := std_max (len_seqid t) (l_seq r);
      len_stamp := std_max (len_stamp t) (l_stamp r);
      len_frameid := std_max (len_frameid t) (l_frid r);
      len_fields := merge_row_widths 0 (l_fields r) (len_fields t);
      orig_field_labels := orig_field_labels t; has_header := has_header t |}).

(** The first loop of [Topic::ProcessHeader], over the labels that are left:
    it carries [FieldLabels] and [has_header]. *)
Fixpoint scan_labels (labels : VecString) (fl : VecString) (hh : bool) : VecString * bool :=
  match labels with
  | [] => (fl, hh)
  | label :: rest =>
      if String.eqb label "%time" then scan_labels rest fl hh
      else if String.eqb label (CSVFieldsPrefix +:+ "header.seq")
              || String.eqb label (CSVFieldsPrefix +:+ "header.stamp")
              || String.eqb label (CSVFieldsPrefix +:+ "header.frame_id")
      then scan_labels rest fl true
      else if String.eqb (substr label 0 (String.length CSVFieldsPrefix)) CSVFieldsPrefix
      then scan_labels rest (fl ++ [substr_from label (String.length CSVFieldsPrefix)]) hh
      else scan_labels rest (fl ++ [label]) hh
  end.

(** The last loop of [Topic::ProcessHeader], from index [i] on: [rest] is
    what is left of [FieldLabels] at [i].  It stops at the first index that
    [len_fields] does not have. *)
Fixpoint raise_to_labels (i : nat) (rest : VecString) (len_fields : list Z) : list Z :=
  match rest with
  | [] => len_fields
  | label :: rest' =>
      if (Z.of_nat (length len_fields) <? Z.of_nat i + 1) then len_fields
      else match len_fields !! i with
           | Some old =>
               raise_to_labels (S i) rest'
                 (<[i := std_max old (Z.of_nat (String.length label))]> len_fields)
           | None => len_fields
           end
  end.

(** [Topic::ProcessHeader]. *)
Definition ProcessHeader (t : Topic) : Topic :=
  let '(fl, hh) := scan_labels (orig_field_labels t) (FieldLabels t) (has_header t) in
  {| Name := Name t; FileName := FileName t; FieldLabels := fl;
     Messages := Messages t;
     is_initialized := is_initialized t; is_fault_topic := is_fault_topic t;
     len_seqid := std_max (len_seqid t) (Z.of_nat (String.length hdr_seq));
     len_stamp := std_max (len_stamp t) (Z.of_nat (String.length hdr_stamp));
     len_frameid := std_max (len_frameid t) (Z.of_nat (String.length hdr_frid));
     len_fields := raise_to_labels 0 fl (len_fields t);
     orig_field_labels := orig_field_labels t; has_header := hh |}.

(** The padding loop of [ReadFromFile]:
    [while (tokens.size() < n) tokens.push_back("")]. *)
Fixpoint pad_tokens (fuel : nat) (n : nat) (tokens : VecString) : VecString :=
  match fuel with
  | O => tokens
  | S fuel' =>
      if (length tokens <? n)%nat then pad_tokens fuel' n (tokens ++ [""]) else tokens
  end.

Definition set_Messages (ms : list Message) (t : Topic) : Topic :=
  {| Name := Name t; FileName := FileName t; FieldLabels := FieldLabels t;
     Messages := ms;
     is_initialized := is_initialized t; is_fault_topic := is_fault_topic t;
     len_seqid := len_seqid t; len_stamp := len_stamp t;
     len_frameid := len_frameid t; len_fields := len_fields t;
     orig_field_labels := orig_field_labels t; has_header := has_header t |}.

Definition with_FileName (f : string) (t : Topic) : Topic :=
  {| Name := Name t; FileName := f; FieldLabels := FieldLabels t;
     Messages := Messages t;
     is_initialized := is_initialized t; is_fault_topic := is_fault_topic t;
     len_seqid := len_seqid t; len_stamp := len_stamp t;
     len_frameid := len_frameid t; len_fields := len_fields t;
     orig_field_labels := orig_field_labels t; has_header := has_header t |}.

Definition overflow_message (line_number : Z) (filename : string) : string :=
  "Error converting line #" +:+ int_to_string line_number +:+ " of '" +:+ filename
  +:+ "'. Skipping this topic!".

(** The row loop of [ReadFromFile]: [lines] are the lines [std::getline]
    still delivers; the result is the topic and what went to [std::cerr]. *)
Fixpoint read_rows (filename : string) (lines : list string) (line_number : Z)
    (t : Topic) : Topic * list string :=
  match lines with
  | [] => (t, [])
  | line :: rest =>
      let line_number := to_int (line_number + 1) in
      let tokens := Tokenize line CSVDelimiter in
      let n := length (orig_field_labels t) in
      let tokens := pad_tokens (n - length tokens) n tokens in
      if (n <? length tokens)%nat then (t, [overflow_message line_number filename])
      else
        let '(msg, t') := TokensToMessage tokens t in
        read_rows filename rest line_number (set_Messages (Messages t' ++ [msg]) t')
  end.

(** What [ReadFromFile] leaves behind: the topic, the returned status and
    the lines written to [std::cerr]. *)
Record LoadResult := mkLoadResult {
  loaded : Topic;
  status : bool;
  cerr : list string
}.

(** The last statements of [ReadFromFile], after the row loop. *)
Definition finish_load (t : Topic) : Topic :=
  let t := ProcessHeader t in
  let fault :=
    if (String.length FaultTopicPrefix <=? String.length (Name t))%nat
    then String.eqb (substr (Name t) 0 (String.length FaultTopicPrefix)) FaultTopicPrefix
    else is_fault_topic t in
  {| Name := Name t; FileName := FileName t; FieldLabels := FieldLabels t;
     Messages := Messages t;
     is_initialized := true; is_fault_topic := fault;
     len_seqid := len_seqid t; len_stamp := len_stamp t;
     len_frameid := len_frameid t; len_fields := len_fields t;
     orig_field_labels := orig_field_labels t; has_header := has_header t |}.

(** The string a reference parameter holds while the topic is [t]. *)
Definition ref_value (r : StringRef) (t : Topic) : string :=
  match r with
  | OwnString s => s
  | TopicName => Name t
  | TopicFileName => FileName t
  end.

(** [Topic::ReadFromFile].  [filename] is a reference: it is read after
    [Clear()] and again after each of the two assignments, so an argument
    that is the topic's own [Name] or [FileName] is read as the topic then
    has it.  [ifs] is the stream [std::ifstream ifs(filename)] opens on the
    string [filename] holds at that point: [None] when [is_open()] is false,
    otherwise the lines of the file. *)
Definition ReadFromFile (filename : StringRef) (ifs : option (list string)) (t : Topic)
    : LoadResult :=
  let topic_name := Name t in
  let t := Clear t in
  let t :=
    {| Name := Name t; FileName := ref_value filename t; FieldLabels := FieldLabels t;
       Messages := Messages t;
       is_initialized := is_initialized t; is_fault_topic := is_fault_topic t;
       len_seqid := len_seqid t; len_stamp := len_stamp t;
       len_frameid := len_frameid t; len_fields := len_fields t;
       orig_field_labels := orig_field_labels t; has_header := has_header t |} in
  let t :=
    {| Name := topic_name; FileName := FileName t; FieldLabels := FieldLabels t;
       Messages := Messages t;
       is_initialized := is_initialized t; is_fault_topic := is_fault_topic t;
       len_seqid := len_seqid t; len_stamp := len_stamp t;
       len_frameid := len_frameid t; len_fields := len_fields t;
       orig_field_labels := orig_field_labels t; has_header := has_header t |} in
  match ifs with
  | None =>
      mkLoadResult t false ["Failed to open '" +:+ ref_value filename t +:+ "' file."]
  | Some [] =>
      mkLoadResult t false
        ["Error reading the header from '" +:+ ref_value filename t +:+ "' file."]
  | Some (line :: rows) =>
      let t :=
        {| Name := Name t; FileName := FileName t; FieldLabels := FieldLabels t;
           Messages := Messages t;
           is_initialized := is_initialized t; is_fault_topic := is_fault_topic t;
           len_seqid := len_seqid t; len_stamp := len_stamp t;
           len_frameid := len_frameid t; len_fields := len_fields t;
           orig_field_labels := Tokenize line CSVDelimiter;
           has_header := has_header t |} in
      let '(t, errs) := read_rows (ref_value filename t) rows 0 t in
      let t := finish_load t in
      mkLoadResult t (IsInitialized t) errs
  end.

(** The constructor [Topic::Topic(filename, topic_name)]: the members take
    their default initializers, [Name] is assigned, and a non-empty
    [filename] is loaded (the status [ReadFromFile] returns is dropped).
    The result is the topic and what went to [std::cerr]. *)
Definition Topic_ctor (filename : string) (ifs : option (list string))
    (topic_name : string) : Topic * list string :=
  let t := new_Topic topic_name in
  if negb (String.eqb filename "")
  then let r := ReadFromFile filename ifs t in (loaded r, cerr r)
  else (t, []).

(** *** Printing *)

(** The loop of [PrintHeader] that adds the field widths to [total_len],
    from index [i] on ([rest] is what is left of [FieldLabels]). *)
Fixpoint sum_field_widths (i : nat) (rest : VecString) (len_fields : list Z)
    (total_len : Z) : option Z :=
  match rest with
  | [] => Some total_len
  | _ :: rest' =>
      w ← len_fields !! i;
      sum_field_widths (S i) rest' len_fields (to_int (total_len + w))
  end.

(** The loop of [PrintHeader] that prints the field labels. *)
Fixpoint print_field_labels (i : nat) (rest : VecString) (len_fields : list Z)
    (field_separator : string) : option string :=
  match rest with
  | [] => Some ""
  | label :: rest' =>
      w ← len_fields !! i;
      tail ← print_field_labels (S i) rest' len_fields field_separator;
      Some (field_separator +:+ setw w label +:+ tail)
  end.

(** What [PrintHeader] prints before the field labels. *)
Definition header_prefix (field_separator : string) (len_datetime : Z) (t : Topic) : string :=
  let line := field_separator +:+ hdr_ind +:+ field_separator
              +:+ setw len_datetime hdr_datetime in
  if has_header t
  then line +:+ field_separator +:+ setw (len_seqid t) hdr_seq
            +:+ field_separator +:+ setw (len_stamp t) hdr_stamp
            +:+ field_separator +:+ setw (len_frameid t) hdr_frid
  else line.

(** [Topic::PrintHeader]: the lines written to [std::cout] and the returned
    length; [None] when [len_fields] is read out of range.  Each assignment
    to the [int] [total_len] stores the sum converted to [int]. *)
Definition PrintHeader (field_separator : string) (t : Topic) : option (list string * Z) :=
  match Messages t with
  | [] => Some ([], 0)
  | m0 :: _ =>
      let len_datetime := Z.of_nat (String.length (DateTime_ToString m0)) in
      let total_len :=
        to_int (Z.of_nat (String.length hdr_ind) + len_datetime
                + len_seqid t + len_stamp t + len_frameid t) in
      total_len ← sum_field_widths 0 (FieldLabels t) (len_fields t) total_len;
      let total_len :=
        to_int (total_len + (6 + Z.of_nat (length (FieldLabels t)))
                            * Z.of_nat (String.length field_separator)) in
      fields ← print_field_labels 0 (FieldLabels t) (len_fields t) field_separator;
      Some ([header_prefix field_separator len_datetime t +:+ fields +:+ field_separator],
            total_len)
  end.

(** [std::string(header_length, '-')]: a negative [int] becomes a size
    beyond [max_size()] and the constructor throws. *)
Definition dashed_rule (header_length : Z) : option string :=
  if header_length <? 0 then None
  else Some (string_fill (Z.to_nat header_length) "-"%char).

(** The line [Print] writes for message [i]. *)
Definition message_line (field_separator : string) (t : Topic) (i : Z) (m : Message) : string :=
  field_separator +:+ setw (Z.of_nat (String.length hdr_ind)) (int_to_string i)
  +:+ field_separator
  +:+ Message_ToString m (len_seqid t) (len_stamp t) (len_frameid t) (len_fields t)
        (has_header t) field_separator
  +:+ field_separator.

(** The message loop of [Print], at index [i] with [printed_messages] lines
    out; [bound] is [n_start + n_messages].  Each unit of [fuel] pays for one
    test of the loop condition; [Print] gives one more than there are
    messages, which [print_messages_spec] shows to be enough. *)
Fixpoint print_messages (fuel : nat) (field_separator : string) (t : Topic)
    (bound i printed_messages : Z) : option (list string * Z) :=
  match fuel with
  | O => None
  | S fuel' =>
      if (i <? bound) && (i <? Z.of_nat (length (Messages t)))
      then
        m ← Messages t !! Z.to_nat i;
        '(lines, n) ← print_messages fuel' field_separator t bound
                        (to_int (i + 1)) (to_int (printed_messages + 1));
        Some (message_line field_separator t i m :: lines, n)
      else Some ([], printed_messages)
  end.

(** [Topic::Print]: the lines written to [std::cout] and the returned
    count. *)
Definition Print (n_start n_messages : Z) (field_separator : string) (t : Topic)
    : option (list string * Z) :=
  if n_start <? 0 then Some ([], 0)
  else
    let n_messages :=
      if n_messages <? 0 then Z.of_nat (length (Messages t)) else n_messages in
    '(header, header_length) ← PrintHeader field_separator t;
    rule ← dashed_rule header_length;
    '(lines, printed_messages) ←
       print_messages (S (length (Messages t))) field_separator t
         (to_int (n_start + n_messages)) n_start 0;
    Some (header ++ [rule] ++ lines, printed_messages).

End TopicClass.

(** ** A reference instance of the collaborators

    The general theorems below hold for every [Externals]; the runs at the
    end of the file evaluate the embedding on concrete files with this
    instance. *)

Module Reference.

(** Modelled from the spec: the tokenizer of commons.h ("splits a line into
    an ordered sequence of strings given a delimiter"; "an empty header row
    yields zero normalized labels").  [cur] is the token being read. *)
Fixpoint split_line (delimiter : ascii) (cur : string) (s : string) : VecString :=
  match s with
  | EmptyString => if String.eqb cur "" then [] else [cur]
  | String c s' =>
      if Ascii.eqb c delimiter then cur :: split_line delimiter "" s'
      else split_line delimiter (cur +:+ String c "") s'
  end.

Definition ref_Tokenize (line : string) (delimiter : ascii) : VecString :=
  split_line delimiter "" line.

(** Modelled from the spec: the field-name prefix of commons.h, as in the
    spec's example header [%time,field.header.seq,...,field.x]. *)
Definition ref_CSVFieldsPrefix : string := "field.".

(** Modelled from the spec: the reserved fault-topic marker of commons.h
    (the spec does not give its text). *)
Definition ref_FaultTopicPrefix : string := "failure_status".

(** Modelled from the spec: the record of message.h, "one parsed row". *)
Record RefMessage := mkRefMessage {
  DateTime : string;
  HeaderSeq : string;
  HeaderStamp : string;
  HeaderFrameId : string;
  FieldValues : VecString
}.

(** Modelled from the spec: [Message::TokensToMessage] of message.h ("given
    one row's tokens and the original column labels, produces a typed record
    plus the minimum display widths that row would require for its
    sequence-id/timestamp/frame-id/generic fields"). *)
Fixpoint ref_build (tokens labels : VecString) (r : RowWidths RefMessage)
    : RowWidths RefMessage :=
  match tokens, labels with
  | tok :: tokens', label :: labels' =>
      let m := row_msg r in
      let w := Z.of_nat (String.length tok) in
      ref_build tokens' labels'
        (if String.eqb label "%time"
         then mkRowWidths
                (mkRefMessage tok (HeaderSeq m) (HeaderStamp m) (HeaderFrameId m) (FieldValues m))
                (l_seq r) (l_stamp r) (l_frid r) (l_fields r)
         else if String.eqb label (ref_CSVFieldsPrefix +:+ "header.seq")
         then mkRowWidths
                (mkRefMessage (DateTime m) tok (HeaderStamp m) (HeaderFrameId m) (FieldValues m))
                w (l_stamp r) (l_frid r) (l_fields r)
         else if String.eqb label (ref_CSVFieldsPrefix +:+ "header.stamp")
         then mkRowWidths
                (mkRefMessage (DateTime m) (HeaderSeq m) tok (HeaderFrameId m) (FieldValues m))
                (l_seq r) w (l_frid r) (l_fields r)
         else if String.eqb label (ref_CSVFieldsPrefix +:+ "header.frame_id")
         then mkRowWidths
                (mkRefMessage (DateTime m) (HeaderSeq m) (HeaderStamp m) tok (FieldValues m))
                (l_seq r) (l_stamp r) w (l_fields r)
         else mkRowWidths
                (mkRefMessage (DateTime m) (HeaderSeq m) (HeaderStamp m) (HeaderFrameId m)
                   (FieldValues m ++ [tok]))
                (l_seq r) (l_stamp r) (l_frid r) (l_fields r ++ [w]))
  | _, _ => r
  end.

Definition ref_TokensToMessage (tokens labels : VecString) : RowWidths RefMessage :=
  ref_build tokens labels (mkRowWidths (mkRefMessage "" "" "" "" []) 0 0 0 []).

(** Modelled from the spec: the "method returning its formatted timestamp
    string" of message.h; the text of the time column stands for it. *)
Definition ref_DateTime_ToString (m : RefMessage) : string := DateTime m.

(** Modelled from the spec: the generic fields of a rendered record of
    message.h, each in its width. *)
Fixpoint ref_fields (values : VecString) (widths : list Z) (sep : string) : string :=
  match values with
  | [] => ""
  | v :: values' =>
      sep +:+ setw (hd 0 widths) v +:+ ref_fields values' (tl widths) sep
  end.

(** Modelled from the spec: the "render method taking (scalar widths x3,
    generic-field widths, triple-present flag, separator) and returning a
    formatted line" of message.h. *)
Definition ref_ToString (m : RefMessage) (len_seq len_stamp len_frameid : Z)
    (len_fields : list Z) (has_header : bool) (sep : string) : string :=
  DateTime m
  +:+ (if has_header
       then sep +:+ setw len_seq (HeaderSeq m) +:+ sep +:+ setw len_stamp (HeaderStamp m)
            +:+ sep +:+ setw len_frameid (HeaderFrameId m)
       else "")
  +:+ ref_fields (FieldValues m) len_fields sep.

Definition ref_externals : Externals := {|
  CSVDelimiter := ","%char;
  CSVFieldsPrefix := ref_CSVFieldsPrefix;
  FaultTopicPrefix := ref_FaultTopicPrefix;
  Tokenize := ref_Tokenize;
  Message := RefMessage;
  Message_TokensToMessage := ref_TokensToMessage;
  DateTime_ToString := ref_DateTime_ToString;
  Message_ToString := ref_ToString
|}.

(** A file of a topic with the header triple and one generic field, and
    two data rows. *)
Definition triple_file : list string :=
  ["%time,field.header.seq,field.header.stamp,field.header.frame_id,field.x";
   "1537285151280629639,1,500,odom,3.14";
   "1537285151280629640,2,501,odom,-13.14159"].

(** A file of a topic without the header triple: the time and one generic
    field, one data row. *)
Definition plain_file : list string :=
  ["%time,field.x"; "1537285151280629639,3.14"].

(** A file with a header line and no data row. *)
Definition header_only_file : list string := ["%time,field.x"].

(** A file whose second data row has one token too many. *)
Definition overflow_file : list string := ["a,b"; "1,2"; "1,2,3"; "4,5"].

Definition triple_topic : @Topic ref_externals :=
  loaded (ReadFromFile "topic.csv" (Some triple_file) (new_Topic "failure_status-engines")).

Definition plain_topic : @Topic ref_externals :=
  loaded (ReadFromFile "topic.csv" (Some plain_file) (new_Topic "N/A")).

End Reference.

(** ** The header normalizer as the specification words it *)

(** The tag of a raw column. *)
Inductive ColumnClass :=
  | Timestamp
  | HeaderSeq
  | HeaderStamp
  | HeaderFrameId
  | GenericField (normalized : string).

(** [strip_prefix p s] is [Some r] exactly when [s] is [p] followed by
    [r]. *)
Fixpoint strip_prefix (p s : string) : option string :=
  match p, s with
  | EmptyString, _ => Some s
  | String a p', String b s' => if Ascii.eqb a b then strip_prefix p' s' else None
  | String _ _, EmptyString => None
  end.

Section HeaderNormalizer.
Context {ext : Externals}.

Definition classify (label : string) : ColumnClass :=
  if decide (label = "%time") then Timestamp
  else if decide (label = CSVFieldsPrefix +:+ "header.seq") then HeaderSeq
  else if decide (label = CSVFieldsPrefix +:+ "header.stamp") then HeaderStamp
  else if decide (label = CSVFieldsPrefix +:+ "header.frame_id") then HeaderFrameId
  else match strip_prefix CSVFieldsPrefix label with
       | Some stripped => GenericField stripped
       | None => GenericField label
       end.

Definition normalized_label (c : ColumnClass) : option string :=
  match c with
  | GenericField l => Some l
  | _ => None
  end.

Definition in_header_triple (c : ColumnClass) : bool :=
  match c with
  | HeaderSeq | HeaderStamp | HeaderFrameId => true
  | _ => false
  end.

(** The normalized labels of a header, in order, duplicates kept. *)
Definition normalized_labels (labels : VecString) : VecString :=
  omap (fun label => normalized_label (classify label)) labels.

(** Whether some column of the header belongs to the header triple. *)
Definition triple_present (labels : VecString) : bool :=
  existsb (fun label => in_header_triple (classify label)) labels.

End HeaderNormalizer.

(** ** The width of the header line *)

(** The characters the field labels take on the header line: [std::setw]
    widens a column to its label. *)
Fixpoint printed_fields_width (labels : VecString) (widths : list Z) : Z :=
  match labels, widths with
  | label :: labels', w :: widths' =>
      Z.max w (Z.of_nat (String.length label)) + printed_fields_width labels' widths'
  | _, _ => 0
  end.

(** The field widths as [PrintHeader] adds them up. *)
Fixpoint counted_fields_width (labels : VecString) (widths : list Z) : Z :=
  match labels, widths with
  | _ :: labels', w :: widths' => w + counted_fields_width labels' widths'
  | _, _ => 0
  end.

(** ** The rows of a file, as the specification words them *)

Section Rows.
Context {ext : Externals}.

(** A data row has at most as many tokens as the header has columns. *)
Definition fits (labels : VecString) (line : string) : Prop :=
  (length (Tokenize line CSVDelimiter) <= length labels)%nat.

(** A data row has more tokens than the header has columns. *)
Definition overflows (labels : VecString) (line : string) : Prop :=
  (length labels < length (Tokenize line CSVDelimiter))%nat.

(** The tokens of a row, with empty strings for the columns it lacks. *)
Definition row_tokens (labels : VecString) (line : string) : VecString :=
  let tokens := Tokenize line CSVDelimiter in
  tokens ++ replicate (length labels - length tokens) "".

(** The record the collaborator builds from a row. *)
Definition row_record (labels : VecString) (line : string) : RowWidths Message :=
  Message_TokensToMessage (row_tokens labels line) labels.

(** One accepted row: its widths folded in, its message appended. *)
Definition absorb_row (t : Topic) (line : string) : Topic :=
  let '(msg, t') := TokensToMessage (row_tokens (orig_field_labels t) line) t in
  set_Messages (Messages t' ++ [msg]) t'.

(** The topic [ReadFromFile] starts the row loop with. *)
Definition start_load (filename topic_name : string) (labels : VecString) : Topic :=
  {| Name := topic_name; FileName := filename; FieldLabels := []; Messages := [];
     is_initialized := false; is_fault_topic := false;
     len_seqid := 0; len_stamp := 0; len_frameid := 0; len_fields := [];
     orig_field_labels := labels; has_header := false |}.

(** The records [Print] is asked for: those from index [n_start] on, all of
    them for a negative [n_messages], the first [n_messages] otherwise. *)
Definition selected_records (n_start n_messages : Z) (ms : list Message) : list Message :=
  let remaining := drop (Z.to_nat n_start) ms in
  if n_messages <? 0 then remaining else take (Z.to_nat n_messages) remaining.

(** The lines of the records [ms], the first of which has index [n_start]. *)
Definition record_lines (field_separator : string) (t : Topic) (n_start : Z)
    (ms : list Message) : list string :=
  imap (fun j m => message_line field_separator t (n_start + Z.of_nat j) m) ms.

(** Every width of [t1] is at most the width [t2] has in its place. *)
Definition widths_le (t1 t2 : Topic) : Prop :=
  len_seqid t1 <= len_seqid t2
  /\ len_stamp t1 <= len_stamp t2
  /\ len_frameid t1 <= len_frameid t2
  /\ (forall (j : nat) (a : Z),
        len_fields t1 !! j = Some a ->
        exists b, len_fields t2 !! j = Some b /\ a <= b).

(** A label is one of the three markers of the header triple. *)
Definition header_triple_marker (label : string) : Prop :=
  label = CSVFieldsPrefix +:+ "header.seq"
  \/ label = CSVFieldsPrefix +:+ "header.stamp"
  \/ label = CSVFieldsPrefix +:+ "header.frame_id".

End Rows.

(** ** Facts about integers and strings *)

Lemma to_int_id z : INT_MIN <= z <= INT_MAX -> to_int z = z.
Proof.
  unfold INT_MIN, INT_MAX, to_int. intros H.
  rewrite Z.mod_small by lia. lia.
Qed.

Lemma to_int_le_max z : to_int z <= INT_MAX.
Proof.
  unfold to_int, INT_MAX.
  pose proof (Z.mod_pos_bound (z + 2147483648) 4294967296 ltac:(lia)). lia.
Qed.

Lemma to_int_add_l a b : to_int (to_int a + b) = to_int (a + b).
Proof.
  unfold to_int.
  replace ((a + 2147483648) mod 4294967296 - 2147483648 + b + 2147483648)
    with ((a + 2147483648) mod 4294967296 + b) by lia.
  rewrite Zplus_mod_idemp_l. f_equal. f_equal. lia.
Qed.

Lemma std_max_max a b : std_max a b = Z.max a b.
Proof. unfold std_max. destruct (Z.ltb_spec a b); lia. Qed.

Lemma string_app_length (s1 s2 : string) :
  String.length (s1 +:+ s2) = (String.length s1 + String.length s2)%nat.
Proof. induction s1 as [|c s1 IH]; simpl; [done | by rewrite IH]. Qed.

Lemma string_fill_length n c : String.length (string_fill n c) = n.
Proof. induction n as [|n IH]; simpl; [done | by rewrite IH]. Qed.

Lemma setw_length w s :
  Z.of_nat (String.length (setw w s)) = Z.max w (Z.of_nat (String.length s)).
Proof. unfold setw. rewrite string_app_length, string_fill_length. lia. Qed.

Lemma strip_prefix_Some p s r : strip_prefix p s = Some r <-> s = p +:+ r.
Proof.
  revert s. induction p as [|a p IH]; intros s; simpl.
  - split; [by intros [= ->] | by intros ->].
  - destruct s as [|b s].
    + split; [done | discriminate].
    + destruct (Ascii.eqb_spec a b) as [->|Hne].
      * rewrite IH. split; [by intros -> | by intros [= ->]].
      * split; [done | intros [= -> _]; by destruct Hne].
Qed.

Lemma substring_0_all s : String.substring 0 (String.length s) s = s.
Proof. induction s as [|a s IH]; simpl; [done | by rewrite IH]. Qed.

Lemma substring_0_0 s : String.substring 0 0 s = "".
Proof. by destruct s. Qed.

(** The test and the two [substr] calls of [ProcessHeader] strip the prefix. *)
Lemma strip_prefix_substr p s :
  strip_prefix p s =
  if String.eqb (substr s 0 (String.length p)) p
  then Some (substr_from s (String.length p)) else None.
Proof.
  unfold substr, substr_from. revert s.
  induction p as [|a p IH]; intros s.
  - simpl. rewrite substring_0_0, Nat.sub_0_r, substring_0_all. done.
  - destruct s as [|b s]; [done |]. simpl.
    destruct (Ascii.eqb_spec a b) as [->|Hne].
    + rewrite Ascii.eqb_refl. simpl. apply IH.
    + destruct (Ascii.eqb_spec b a) as [->|_]; [by destruct Hne | done].
Qed.

(** ** The header normalizer of [ProcessHeader] *)

Section HeaderFacts.
Context {ext : Externals}.

Lemma normalized_labels_cons label rest :
  normalized_labels (label :: rest) =
  match normalized_label (classify label) with
  | Some l => l :: normalized_labels rest
  | None => normalized_labels rest
  end.
Proof. reflexivity. Qed.

Lemma triple_present_cons label rest :
  triple_present (label :: rest) = in_header_triple (classify label) || triple_present rest.
Proof. reflexivity. Qed.

Local Ltac classify_as c :=
  match goal with
  | |- context [classify ?l] =>
      let H := fresh in
      assert (classify l = c) as H
        by (unfold classify; repeat case_decide; congruence);
      rewrite !H; clear H
  end.

(** The first loop of [ProcessHeader] appends the normalized labels and
    raises the flag when a column of the header triple goes by. *)
Lemma scan_labels_spec labels fl hh :
  scan_labels labels fl hh = (fl ++ normalized_labels labels, hh || triple_present labels).
Proof.
  revert fl hh. induction labels as [|label rest IH]; intros fl hh.
  - simpl. by rewrite app_nil_r, orb_false_r.
  - rewrite normalized_labels_cons, triple_present_cons. cbn [scan_labels].
    destruct (String.eqb_spec label "%time") as [Htime|Htime].
    { classify_as Timestamp. cbn. apply IH. }
    destruct (String.eqb_spec label (CSVFieldsPrefix +:+ "header.seq")) as [Hseq|Hseq].
    { classify_as HeaderSeq. cbn. rewrite IH. by destruct hh. }
    destruct (String.eqb_spec label (CSVFieldsPrefix +:+ "header.stamp")) as [Hst|Hst].
    { classify_as HeaderStamp. cbn. rewrite IH. by destruct hh. }
    destruct (String.eqb_spec label (CSVFieldsPrefix +:+ "header.frame_id")) as [Hfr|Hfr].
    { classify_as HeaderFrameId. cbn. rewrite IH. by destruct hh. }
    cbn [orb].
    assert (classify label =
            match strip_prefix CSVFieldsPrefix label with
            | Some stripped => GenericField stripped
            | None => GenericField label
            end) as ->
      by (unfold classify; repeat case_decide; congruence).
    rewrite strip_prefix_substr.
    destruct (String.eqb (substr label 0 (String.length CSVFieldsPrefix)) CSVFieldsPrefix);
      cbn; rewrite IH, <- app_assoc; done.
Qed.

End HeaderFacts.

(** C2.  [ProcessHeader] goes through the raw labels in order: "%time" is
    left out; the prefixed "header.seq", "header.stamp" and
    "header.frame_id" are left out and set [has_header]; any other label is
    appended to [FieldLabels], without the field-name prefix when it starts
    with it and unchanged otherwise ([classify]).  Nothing is reordered or
    merged ([normalized_labels] maps the list position by position), and no
    label gives no field label and leaves [has_header] as it was. *)
Theorem ProcessHeader_classifies_labels :
  forall (ext : Externals) (t : Topic),
    FieldLabels (ProcessHeader t)
      = FieldLabels t ++ normalized_labels (orig_field_labels t)
    /\ has_header (ProcessHeader t)
      = has_header t || triple_present (orig_field_labels t)
    /\ normalized_labels [] = []
    /\ triple_present [] = false.
Proof.
  intros ext t. unfold ProcessHeader.
  rewrite scan_labels_spec. cbn. done.
Qed.

(** ** Loading: the rows *)

Section LoadFacts.
Context {ext : Externals}.

Lemma pad_tokens_spec fuel n tokens :
  fuel = (n - length tokens)%nat ->
  pad_tokens fuel n tokens = tokens ++ replicate (n - length tokens) "".
Proof.
  revert tokens. induction fuel as [|fuel IH]; intros tokens Hfuel.
  - rewrite <- Hfuel. simpl. by rewrite app_nil_r.
  - simpl. destruct (Nat.ltb_spec (length tokens) n) as [Hlt|Hge]; [|lia].
    rewrite IH by (rewrite length_app; simpl; lia).
    rewrite length_app, <- Hfuel. simpl.
    replace (n - (length tokens + 1))%nat with fuel by lia.
    by rewrite <- app_assoc.
Qed.

Lemma row_tokens_length labels line :
  length (row_tokens labels line)
  = Nat.max (length labels) (length (Tokenize line CSVDelimiter)).
Proof. unfold row_tokens. rewrite length_app, length_replicate. lia. Qed.

Lemma absorb_row_orig t line : orig_field_labels (absorb_row t line) = orig_field_labels t.
Proof. reflexivity. Qed.

Lemma foldl_absorb_orig rows t :
  orig_field_labels (foldl absorb_row t rows) = orig_field_labels t.
Proof.
  revert t. induction rows as [|row rows IH]; intros t; simpl; [done |].
  by rewrite IH.
Qed.

Lemma foldl_absorb_Messages rows t :
  Messages (foldl absorb_row t rows)
  = Messages t ++ map (fun row => row_msg (row_record (orig_field_labels t) row)) rows.
Proof.
  revert t. induction rows as [|row rows IH]; intros t; simpl.
  - by rewrite app_nil_r.
  - rewrite IH. cbn. by rewrite <- app_assoc.
Qed.

Lemma foldl_absorb_kept rows t :
  let t' := foldl absorb_row t rows in
  Name t' = Name t /\ FileName t' = FileName t /\ FieldLabels t' = FieldLabels t
  /\ is_initialized t' = is_initialized t /\ is_fault_topic t' = is_fault_topic t
  /\ has_header t' = has_header t.
Proof.
  revert t. induction rows as [|row rows IH]; intros t; simpl; [done |].
  destruct (IH (absorb_row t row)) as (-> & -> & -> & -> & -> & ->). done.
Qed.

(** Rows that fit are all absorbed, and nothing is written to [std::cerr]. *)
Lemma read_rows_fit filename rows line_number t :
  Forall (fits (orig_field_labels t)) rows ->
  read_rows filename rows line_number t = (foldl absorb_row t rows, []).
Proof.
  revert line_number t. induction rows as [|row rows IH]; intros k t Hfit; [done |].
  inversion Hfit as [|? ? Hrow Hrows]; subst. cbn [read_rows foldl].
  rewrite pad_tokens_spec by done. fold (row_tokens (orig_field_labels t) row).
  destruct (Nat.ltb_spec (length (orig_field_labels t))
              (length (row_tokens (orig_field_labels t) row))) as [Hlt|_].
  { rewrite row_tokens_length in Hlt. unfold fits in Hrow. lia. }
  apply IH. done.
Qed.

(** The first row that overflows ends the loop: the rows before it are
    absorbed, the rows after it are not looked at, and its number goes to
    [std::cerr]. *)
Lemma read_rows_overflow filename pre bad rest line_number t :
  Forall (fits (orig_field_labels t)) pre ->
  overflows (orig_field_labels t) bad ->
  0 <= line_number ->
  line_number + Z.of_nat (length pre) < INT_MAX ->
  read_rows filename (pre ++ bad :: rest) line_number t
  = (foldl absorb_row t pre,
     [overflow_message (line_number + Z.of_nat (length pre) + 1) filename]).
Proof.
  revert line_number t. induction pre as [|row pre IH]; intros k t Hfit Hbad Hk Hmax.
  - cbn [app read_rows foldl]. rewrite pad_tokens_spec by done.
    fold (row_tokens (orig_field_labels t) bad).
    destruct (Nat.ltb_spec (length (orig_field_labels t))
                (length (row_tokens (orig_field_labels t) bad))) as [_|Hge].
    + rewrite to_int_id by (unfold INT_MIN, INT_MAX in *; simpl in Hmax; lia).
      simpl. by rewrite Z.add_0_r.
    + rewrite row_tokens_length in Hge. unfold overflows in Hbad. lia.
  - inversion Hfit as [|? ? Hrow Hrows]; subst.
    cbn [app read_rows foldl]. rewrite pad_tokens_spec by done.
    fold (row_tokens (orig_field_labels t) row).
    destruct (Nat.ltb_spec (length (orig_field_labels t))
                (length (row_tokens (orig_field_labels t) row))) as [Hlt|_].
    { rewrite row_tokens_length in Hlt. unfold fits in Hrow. lia. }
    cbn [length] in Hmax.
    rewrite to_int_id by (unfold INT_MIN, INT_MAX in *; lia).
    change (read_rows filename (pre ++ bad :: rest) (k + 1) (absorb_row t row)
            = (foldl absorb_row (absorb_row t row) pre,
               [overflow_message (k + Z.of_nat (S (length pre)) + 1) filename])).
    rewrite IH by (done || lia). do 3 f_equal. lia.
Qed.

(** [ReadFromFile] on a file that has a header line. *)
Lemma ReadFromFile_header (filename : string) line rows t :
  ReadFromFile filename (Some (line :: rows)) t =
  let '(t', errs) :=
    read_rows filename rows 0
      (start_load filename (Name t) (Tokenize line CSVDelimiter)) in
  mkLoadResult (finish_load t') true errs.
Proof. unfold ReadFromFile. cbn. by destruct (read_rows _ _ _ _). Qed.

End LoadFacts.

(** ** Loading: the whole of [ReadFromFile] *)

Section FinishFacts.
Context {ext : Externals}.

(** Whatever the rows, the loop absorbs some first rows of the file and
    nothing else. *)
Lemma read_rows_absorbs filename rows line_number t :
  exists pre post,
    rows = pre ++ post
    /\ fst (read_rows filename rows line_number t) = foldl absorb_row t pre.
Proof.
  revert line_number t. induction rows as [|row rows IH]; intros k t.
  - by exists [], [].
  - cbn [read_rows]. rewrite pad_tokens_spec by done.
    fold (row_tokens (orig_field_labels t) row).
    destruct (length (orig_field_labels t)
              <? length (row_tokens (orig_field_labels t) row))%nat.
    + by exists [], (row :: rows).
    + destruct (IH (to_int (k + 1)) (absorb_row t row)) as (pre & post & -> & Hpre).
      exists (row :: pre), post. split; [done |]. exact Hpre.
Qed.

Lemma finish_load_fields t :
  let t' := finish_load t in
  Name t' = Name t /\ FileName t' = FileName t /\ Messages t' = Messages t
  /\ orig_field_labels t' = orig_field_labels t
  /\ FieldLabels t' = FieldLabels t ++ normalized_labels (orig_field_labels t)
  /\ has_header t' = has_header t || triple_present (orig_field_labels t)
  /\ is_initialized t' = true.
Proof.
  unfold finish_load, ProcessHeader. rewrite scan_labels_spec. cbn. done.
Qed.

Lemma finish_load_fault t :
  is_fault_topic (finish_load t) =
  if (String.length FaultTopicPrefix <=? String.length (Name t))%nat
  then String.eqb (substr (Name t) 0 (String.length FaultTopicPrefix)) FaultTopicPrefix
  else is_fault_topic t.
Proof. unfold finish_load, ProcessHeader. by destruct (scan_labels _ _ _). Qed.

Lemma finish_load_widths t :
  let t' := finish_load t in
  len_seqid t' = std_max (len_seqid t) 5
  /\ len_stamp t' = std_max (len_stamp t) 10
  /\ len_frameid t' = std_max (len_frameid t) 5
  /\ len_fields t' = raise_to_labels 0 (FieldLabels t') (len_fields t).
Proof. unfold finish_load, ProcessHeader. by destruct (scan_labels _ _ _). Qed.

(** A load that got past the header line: the topic it leaves is the
    finalization of the start topic with some first rows absorbed. *)
Lemma ReadFromFile_completed (filename : string) line rows t :
  exists pre post,
    rows = pre ++ post
    /\ loaded (ReadFromFile filename (Some (line :: rows)) t)
       = finish_load
           (foldl absorb_row
              (start_load filename (Name t) (Tokenize line CSVDelimiter)) pre).
Proof.
  rewrite ReadFromFile_header.
  destruct (read_rows_absorbs filename rows 0
              (start_load filename (Name t) (Tokenize line CSVDelimiter)))
    as (pre & post & Hrows & Hpre).
  exists pre, post. split; [done |].
  destruct (read_rows _ _ _ _) as [t' errs]. simpl in *. by rewrite Hpre.
Qed.

(** The normalized labels of a load are those of its header line. *)
Lemma ReadFromFile_labels (filename : string) line rows t :
  let labels := Tokenize line CSVDelimiter in
  let t' := loaded (ReadFromFile filename (Some (line :: rows)) t) in
  orig_field_labels t' = labels
  /\ FieldLabels t' = normalized_labels labels
  /\ has_header t' = triple_present labels.
Proof.
  cbn zeta.
  destruct (ReadFromFile_completed filename line rows t) as (pre & post & _ & ->).
  destruct (finish_load_fields
              (foldl absorb_row
                 (start_load filename (Name t) (Tokenize line CSVDelimiter)) pre))
    as (_ & _ & _ & -> & -> & -> & _).
  rewrite foldl_absorb_orig.
  destruct (foldl_absorb_kept pre
              (start_load filename (Name t) (Tokenize line CSVDelimiter)))
    as (_ & _ & -> & _ & _ & ->).
  done.
Qed.

End FinishFacts.

(** C9.  When the file cannot be opened ([None]) and when it has no header
    line ([Some []]), [ReadFromFile] returns false and leaves the topic
    uninitialized and without records. *)
Theorem load_failure_leaves_topic_uninitialized :
  forall (ext : Externals) (filename : string) (t : Topic),
    (let r := ReadFromFile filename None t in
     status r = false /\ IsInitialized (loaded r) = false
     /\ Messages (loaded r) = [])
    /\ (let r := ReadFromFile filename (Some []) t in
        status r = false /\ IsInitialized (loaded r) = false
        /\ Messages (loaded r) = []).
Proof. intros ext filename t. split; cbn; done. Qed.

(** C8.  After a load that ran to completion (the file opened and had a
    header line), [IsFaultTopic] is true exactly when [Name] is at least as
    long as the fault prefix and starts with it; it is false for a shorter
    [Name].  The load keeps [Name], and the flag the topic had before the
    load plays no part. *)
Theorem fault_flag_recomputed_from_name :
  forall (ext : Externals) (filename line : string) (rows : list string) (t : Topic),
    let t' := loaded (ReadFromFile filename (Some (line :: rows)) t) in
    Name t' = Name t
    /\ (IsFaultTopic t' = true <->
        (String.length FaultTopicPrefix <= String.length (Name t'))%nat
        /\ substr (Name t') 0 (String.length FaultTopicPrefix) = FaultTopicPrefix)
    /\ ((String.length (Name t') < String.length FaultTopicPrefix)%nat ->
        IsFaultTopic t' = false).
Proof.
  intros ext filename line rows t. cbn zeta.
  destruct (ReadFromFile_completed filename line rows t) as (pre & post & _ & ->).
  set (t0 := start_load filename (Name t) (Tokenize line CSVDelimiter)).
  destruct (finish_load_fields (foldl absorb_row t0 pre)) as (-> & _).
  unfold IsFaultTopic. rewrite finish_load_fault.
  destruct (foldl_absorb_kept pre t0) as (-> & _ & _ & _ & -> & _).
  subst t0. cbn [start_load Name is_fault_topic].
  split; [done |].
  destruct (Nat.leb_spec (String.length FaultTopicPrefix) (String.length (Name t)))
    as [Hle|Hlt].
  - split.
    + rewrite String.eqb_eq. split; [by intros H | by intros [_ H]].
    + lia.
  - split; [|done]. split; [done | lia].
Qed.

(** C3.  When the rows [pre] fit the header and the next row [bad] has more
    tokens than the header has columns, [ReadFromFile] writes the error
    "Error converting line #N of 'FILE'. Skipping this topic!" with N the
    1-based number of that row in decimal, keeps the records of [pre] and nothing
    else, and otherwise leaves the topic exactly as a load of the file cut
    before [bad] does: header finalization and fault classification have
    run, and the topic is initialized.  The rows after [bad] play no part. *)
Theorem row_overflow_stops_the_load :
  forall (ext : Externals) (filename line : string) (pre : list string)
         (bad : string) (rest : list string) (t : Topic),
    Forall (fits (Tokenize line CSVDelimiter)) pre ->
    overflows (Tokenize line CSVDelimiter) bad ->
    Z.of_nat (length pre) < INT_MAX ->
    let r := ReadFromFile filename (Some (line :: pre ++ bad :: rest)) t in
    let r0 := ReadFromFile filename (Some (line :: pre)) t in
    cerr r = ["Error converting line #"
              +:+ NilZero.string_of_int (Z.to_int (Z.of_nat (length pre) + 1))
              +:+ " of '" +:+ filename +:+ "'. Skipping this topic!"]
    /\ Messages (loaded r)
       = map (fun row => row_msg (row_record (Tokenize line CSVDelimiter) row)) pre
    /\ loaded r = loaded r0
    /\ cerr r0 = []
    /\ loaded r
       = finish_load
           (foldl absorb_row
              (start_load filename (Name t) (Tokenize line CSVDelimiter)) pre)
    /\ IsInitialized (loaded r) = true.
Proof.
  intros ext filename line pre bad rest t Hfit Hbad Hmax. cbn zeta.
  rewrite !ReadFromFile_header.
  rewrite read_rows_overflow by (done || lia).
  rewrite read_rows_fit by done. cbn [cerr loaded].
  set (t0 := start_load filename (Name t) (Tokenize line CSVDelimiter)).
  destruct (finish_load_fields (foldl absorb_row t0 pre))
    as (_ & _ & HM & _ & _ & _ & Hinit).
  unfold IsInitialized. rewrite HM, Hinit, foldl_absorb_Messages.
  repeat split; done.
Qed.

(** C5, amended.  A file that cannot be opened and a file without a header
    line make [ReadFromFile] return false, each with its message on
    [std::cerr].  A row with more tokens than the header is reported on
    [std::cerr] by "Error converting line #N of 'FILE'. Skipping this
    topic!", N its 1-based row number in decimal, while the returned status
    is true and the topic is initialized. *)
Theorem fatal_errors_reported :
  forall (ext : Externals) (filename line : string) (pre : list string)
         (bad : string) (rest : list string) (t : Topic),
    Forall (fits (Tokenize line CSVDelimiter)) pre ->
    overflows (Tokenize line CSVDelimiter) bad ->
    Z.of_nat (length pre) < INT_MAX ->
    (status (ReadFromFile filename None t) = false
     /\ cerr (ReadFromFile filename None t)
        = ["Failed to open '" +:+ filename +:+ "' file."])
    /\ (status (ReadFromFile filename (Some []) t) = false
        /\ cerr (ReadFromFile filename (Some []) t)
           = ["Error reading the header from '" +:+ filename +:+ "' file."])
    /\ (let r := ReadFromFile filename (Some (line :: pre ++ bad :: rest)) t in
        cerr r = ["Error converting line #"
                  +:+ NilZero.string_of_int (Z.to_int (Z.of_nat (length pre) + 1))
                  +:+ " of '" +:+ filename +:+ "'. Skipping this topic!"]
        /\ status r = true
        /\ IsInitialized (loaded r) = true).
Proof.
  intros ext filename line pre bad rest t Hfit Hbad Hmax.
  split; [done |]. split; [done |]. cbn zeta.
  rewrite ReadFromFile_header.
  rewrite read_rows_overflow by (done || lia). cbn [cerr status loaded].
  destruct (finish_load_fields
              (foldl absorb_row
                 (start_load filename (Name t) (Tokenize line CSVDelimiter)) pre))
    as (_ & _ & _ & _ & _ & _ & Hinit).
  unfold IsInitialized. rewrite Hinit. done.
Qed.

(** ** The tracked widths *)

Section WidthFacts.
Context {ext : Externals}.

(** The loop of [TokensToMessage] never reads [len_fields] out of range: it
    extends the vector by one exactly when the index reaches its end. *)
Lemma merge_row_widths_length i rest (lf : list Z) :
  (i <= length lf)%nat ->
  length (merge_row_widths i rest lf) = Nat.max (length lf) (i + length rest).
Proof.
  revert i lf. induction rest as [|w rest IH]; intros i lf Hi; simpl; [lia |].
  destruct (Nat.eqb_spec i (length lf)) as [->|Hne].
  - rewrite IH by (rewrite length_app; simpl; lia).
    rewrite length_app. simpl. lia.
  - destruct (lookup_lt_is_Some_2 lf i ltac:(lia)) as [old ->].
    rewrite IH by (rewrite length_insert; lia).
    rewrite length_insert. lia.
Qed.

Lemma raise_to_labels_length i rest (lf : list Z) :
  length (raise_to_labels i rest lf) = length lf.
Proof.
  revert i lf. induction rest as [|label rest IH]; intros i lf; simpl; [done |].
  destruct (Z.of_nat (length lf) <? Z.of_nat i + 1); [done |].
  destruct (lf !! i); [|done]. by rewrite IH, length_insert.
Qed.

(** The last loop of [ProcessHeader] only raises widths, and raises the
    width at every index it reaches to the length of the label there. *)
Lemma raise_to_labels_lookup i rest (lf : list Z) j w :
  raise_to_labels i rest lf !! j = Some w ->
  (exists old, lf !! j = Some old /\ old <= w)
  /\ (forall label, (i <= j)%nat -> rest !! (j - i)%nat = Some label ->
      Z.of_nat (String.length label) <= w).
Proof.
  revert i lf. induction rest as [|label rest IH]; intros i lf Hj.
  - simpl in Hj. split; [exists w; split; [done | lia] | done].
  - simpl in Hj. destruct (Z.ltb_spec (Z.of_nat (length lf)) (Z.of_nat i + 1)) as [Hshort|Hlong].
    + split; [exists w; split; [done | lia] |].
      intros lab Hij _. apply lookup_lt_Some in Hj. lia.
    + destruct (lf !! i) as [old|] eqn:Hi; [|apply lookup_ge_None in Hi; lia].
      apply IH in Hj as [(old' & Hold' & Hle) Hlab].
      destruct (decide (j = i)) as [->|Hne].
      * rewrite list_lookup_insert_eq in Hold' by lia.
        injection Hold' as <-. rewrite std_max_max in Hle.
        split; [exists old; split; [done | lia] |].
        intros lab _ Hl. rewrite Nat.sub_diag in Hl. simpl in Hl.
        injection Hl as <-. lia.
      * rewrite list_lookup_insert_ne in Hold' by done.
        split; [by exists old' |].
        intros lab Hij Hl. apply Hlab; [lia |].
        replace (j - i)%nat with (S (j - S i)) in Hl by lia. exact Hl.
Qed.

(** With a record builder that reports [g] field widths for every row of
    the header's length, rows that fit leave [len_fields] with [g] entries
    once one of them has been absorbed. *)
Lemma foldl_absorb_len_fields g rows t :
  (forall tokens, length tokens = length (orig_field_labels t) ->
     length (l_fields (Message_TokensToMessage tokens (orig_field_labels t))) = g) ->
  Forall (fits (orig_field_labels t)) rows ->
  length (len_fields (foldl absorb_row t rows))
  = match rows with
    | [] => length (len_fields t)
    | _ :: _ => Nat.max (length (len_fields t)) g
    end.
Proof.
  intros Hg. revert t Hg.
  induction rows as [|row rows IH]; intros t Hg Hfit; [done |].
  inversion Hfit as [|? ? Hrow Hrows]; subst. cbn [foldl].
  rewrite IH by done.
  assert (length (len_fields (absorb_row t row)) = Nat.max (length (len_fields t)) g)
    as Hone.
  { cbn. rewrite merge_row_widths_length by lia.
    rewrite Hg; [lia |]. rewrite row_tokens_length. unfold fits in Hrow. lia. }
  rewrite Hone. destruct rows; lia.
Qed.

End WidthFacts.

(** C1, amended.  After a load of a file with a header line and at least one
    data row, every row with at most as many tokens as the header has
    columns, and with a record builder that reports one width for each
    column that is neither the time nor a header-triple column,
    [FieldLabels] and [len_fields] have the same size.  After a load of a
    file with a header line and no data row, [len_fields] is empty. *)
Theorem field_labels_and_widths_same_size :
  forall (ext : Externals) (filename line row : string) (rows : list string)
         (t : Topic),
    Forall (fits (Tokenize line CSVDelimiter)) (row :: rows) ->
    (forall tokens,
       length tokens = length (Tokenize line CSVDelimiter) ->
       length (l_fields (Message_TokensToMessage tokens (Tokenize line CSVDelimiter)))
       = length (normalized_labels (Tokenize line CSVDelimiter))) ->
    (let r := ReadFromFile filename (Some (line :: row :: rows)) t in
     status r = true
     /\ length (FieldLabels (loaded r)) = length (len_fields (loaded r)))
    /\ len_fields (loaded (ReadFromFile filename (Some [line]) t)) = [].
Proof.
  intros ext filename line row rows t Hfit Hg. split.
  2: { rewrite ReadFromFile_header. cbn [read_rows loaded].
       destruct (finish_load_widths
                   (start_load filename (Name t) (Tokenize line CSVDelimiter)))
         as (_ & _ & _ & ->).
       cbn [start_load len_fields]. by destruct (FieldLabels _). }
  cbn zeta.
  destruct (ReadFromFile_labels filename line (row :: rows) t) as (_ & -> & _).
  rewrite ReadFromFile_header, read_rows_fit by done. cbn [status loaded].
  split; [done |].
  destruct (finish_load_widths
              (foldl absorb_row
                 (start_load filename (Name t) (Tokenize line CSVDelimiter))
                 (row :: rows))) as (_ & _ & _ & ->).
  rewrite raise_to_labels_length.
  rewrite (foldl_absorb_len_fields
             (length (normalized_labels (Tokenize line CSVDelimiter)))) by done.
  cbn. lia.
Qed.

(** C4, amended.  After a load that got past the header line, the three
    scalar widths are at least the lengths of "SeqID", "Time Stamp" and
    "Frame", and every index that has both a field label and a tracked
    width has a width at least the length of the label. *)
Theorem widths_cover_their_labels :
  forall (ext : Externals) (filename line : string) (rows : list string) (t : Topic),
    let t' := loaded (ReadFromFile filename (Some (line :: rows)) t) in
    Z.of_nat (String.length hdr_seq) <= len_seqid t'
    /\ Z.of_nat (String.length hdr_stamp) <= len_stamp t'
    /\ Z.of_nat (String.length hdr_frid) <= len_frameid t'
    /\ (forall (i : nat) (label : string) (w : Z),
          FieldLabels t' !! i = Some label ->
          len_fields t' !! i = Some w ->
          Z.of_nat (String.length label) <= w).
Proof.
  intros ext filename line rows t. cbn zeta.
  destruct (ReadFromFile_completed filename line rows t) as (pre & post & _ & ->).
  set (t0 := foldl absorb_row _ pre).
  destruct (finish_load_widths t0) as (-> & -> & -> & Hlf).
  rewrite !std_max_max.
  split; [cbn; lia |]. split; [cbn; lia |]. split; [cbn; lia |].
  intros i label w Hlabel Hw. rewrite Hlf in Hw.
  apply raise_to_labels_lookup in Hw as [_ Hcover].
  apply Hcover; [lia |]. by rewrite Nat.sub_0_r.
Qed.

(** ** Printing *)

Section PrintFacts.
Context {ext : Externals}.

Lemma PrintHeader_no_messages field_separator t :
  Messages t = [] -> PrintHeader field_separator t = Some ([], 0).
Proof. unfold PrintHeader. by intros ->. Qed.

(** With records, [PrintHeader] writes one line when it writes at all. *)
Lemma PrintHeader_one_line field_separator t header header_length :
  Messages t <> [] ->
  PrintHeader field_separator t = Some (header, header_length) ->
  exists line, header = [line].
Proof.
  unfold PrintHeader. destruct (Messages t) as [|m0 ms]; [done |]. intros _ H.
  destruct (sum_field_widths _ _ _ _); [|done]. cbn in H.
  destruct (print_field_labels _ _ _ _); [|done]. cbn in H.
  injection H as <- _. eauto.
Qed.

(** The message loop, with fuel for the tests that are left: it writes the
    records from [i] up to [bound] and the end of [Messages], one line
    each, and counts them. *)
Lemma print_messages_spec fuel field_separator t bound i printed :
  0 <= i -> bound <= INT_MAX -> 0 <= printed <= i ->
  (length (Messages t) - Z.to_nat i < fuel)%nat ->
  let selected := take (Z.to_nat (bound - i)) (drop (Z.to_nat i) (Messages t)) in
  print_messages fuel field_separator t bound i printed
  = Some (record_lines field_separator t i selected,
          printed + Z.of_nat (length selected)).
Proof.
  revert i printed. induction fuel as [|fuel IH]; intros i printed Hi Hb Hp Hfuel; [lia |].
  cbn zeta. cbn [print_messages].
  destruct (Z.ltb_spec i bound) as [Hlt|Hge]; cbn [andb].
  - destruct (Z.ltb_spec i (Z.of_nat (length (Messages t)))) as [Hin|Hout].
    + destruct (lookup_lt_is_Some_2 (Messages t) (Z.to_nat i) ltac:(lia)) as [m Hm].
      rewrite Hm. cbn [mbind option_bind].
      rewrite !to_int_id by (unfold INT_MIN, INT_MAX in *; lia).
      rewrite IH by lia. cbn [mbind option_bind].
      rewrite (drop_S _ _ _ Hm).
      replace (Z.to_nat (bound - i)) with (S (Z.to_nat (bound - (i + 1)))) by lia.
      replace (Z.to_nat (i + 1)) with (S (Z.to_nat i)) by lia.
      cbn [take length]. unfold record_lines. rewrite imap_cons.
      f_equal. f_equal.
      * f_equal; [by rewrite Z.add_0_r |].
        apply imap_ext. intros j x _. cbn. f_equal. lia.
      * lia.
    + rewrite drop_ge by lia. rewrite take_nil. cbn. by rewrite Z.add_0_r.
  - replace (Z.to_nat (bound - i)) with 0%nat by lia. cbn. by rewrite Z.add_0_r.
Qed.

End PrintFacts.

(** C7, amended.  [Print] with a negative [n_start] writes nothing and returns 0.
    Otherwise, when the header can be printed and [n_start] plus the count
    is an [int], it writes what [PrintHeader] writes (one header line when
    the topic has records), the dashed rule, and then one line for each
    record from [n_start] on, all of them for a negative [n_messages] and
    at most [n_messages] of them otherwise; it returns the number of record
    lines. *)
Theorem Print_writes_selected_records :
  forall (ext : Externals) (n_start n_messages : Z) (field_separator : string)
         (t : Topic),
    (n_start < 0 -> Print n_start n_messages field_separator t = Some ([], 0))
    /\ (forall header header_length,
          0 <= n_start ->
          n_start + (if n_messages <? 0 then Z.of_nat (length (Messages t))
                     else n_messages) <= INT_MAX ->
          PrintHeader field_separator t = Some (header, header_length) ->
          0 <= header_length ->
          let selected := selected_records n_start n_messages (Messages t) in
          Print n_start n_messages field_separator t
          = Some (header
                  ++ [string_fill (Z.to_nat header_length) "-"%char]
                  ++ record_lines field_separator t n_start selected,
                  Z.of_nat (length selected))
          /\ (Messages t <> [] -> exists line, header = [line])
          /\ (Messages t = [] -> header = [])).
Proof.
  intros ext n_start n_messages sep t. split.
  { intros Hneg. unfold Print. destruct (Z.ltb_spec n_start 0); [done | lia]. }
  intros header header_length Hstart Hmax Hheader Hlen. cbn zeta.
  split; [|split].
  - unfold Print. destruct (Z.ltb_spec n_start 0); [lia |].
    rewrite Hheader. cbn [mbind option_bind].
    unfold dashed_rule. destruct (Z.ltb_spec header_length 0); [lia |].
    cbn [mbind option_bind].
    set (count := if n_messages <? 0 then Z.of_nat (length (Messages t)) else n_messages) in *.
    assert (0 <= count) as Hcount by (subst count; destruct (Z.ltb_spec n_messages 0); lia).
    rewrite to_int_id by (unfold INT_MIN, INT_MAX in *; lia).
    rewrite print_messages_spec by lia. cbn [mbind option_bind].
    replace (n_start + count - n_start) with count by lia.
    assert (take (Z.to_nat count) (drop (Z.to_nat n_start) (Messages t))
            = selected_records n_start n_messages (Messages t)) as ->.
    { unfold selected_records. subst count.
      destruct (Z.ltb_spec n_messages 0); [|done].
      apply take_ge. rewrite length_drop. lia. }
    by rewrite Z.add_0_l.
  - intros Hne. by eapply PrintHeader_one_line.
  - intros Hnil. rewrite PrintHeader_no_messages in Hheader by done.
    by injection Hheader as <- _.
Qed.

(** C10.  On a topic with at least one record, [Print] with a non-negative
    [n_start] that selects no record ([n_start] at or past the number of
    records, or [n_messages] zero) writes the header line and the dashed
    rule, and returns 0. *)
Theorem Print_without_records_still_prints_header :
  forall (ext : Externals) (n_start n_messages : Z) (field_separator : string)
         (t : Topic) (header : list string) (header_length : Z),
    Messages t <> [] ->
    0 <= n_start ->
    Z.of_nat (length (Messages t)) <= n_start \/ n_messages = 0 ->
    PrintHeader field_separator t = Some (header, header_length) ->
    0 <= header_length ->
    exists line,
      header = [line]
      /\ Print n_start n_messages field_separator t
         = Some ([line; string_fill (Z.to_nat header_length) "-"%char], 0).
Proof.
  intros ext n_start n_messages sep t header header_length Hne Hstart Hsel Hheader Hlen.
  destruct (PrintHeader_one_line sep t header header_length Hne Hheader) as [line ->].
  exists line. split; [done |].
  unfold Print. destruct (Z.ltb_spec n_start 0); [lia |].
  rewrite Hheader. cbn [mbind option_bind].
  unfold dashed_rule. destruct (Z.ltb_spec header_length 0); [lia |].
  cbn [mbind option_bind print_messages].
  destruct Hsel as [Hpast| ->].
  - destruct (Z.ltb_spec n_start (Z.of_nat (length (Messages t)))); [lia |].
    by rewrite andb_false_r.
  - cbn [Z.ltb Z.compare]. rewrite Z.add_0_r.
    destruct (Z.ltb_spec n_start (to_int n_start)) as [Hlt|_]; [|done].
    destruct (Z_le_gt_dec n_start INT_MAX) as [Hle|Hgt].
    + rewrite to_int_id in Hlt by (unfold INT_MIN, INT_MAX in *; lia). lia.
    + pose proof (to_int_le_max n_start). lia.
Qed.

(** ** The length [PrintHeader] returns and the line it writes *)

Section HeaderLength.
Context {ext : Externals}.

Lemma sum_field_widths_Some i rest (lf : list Z) total n :
  sum_field_widths i rest lf total = Some n ->
  to_int n = to_int (total + counted_fields_width rest (drop i lf)).
Proof.
  revert i total. induction rest as [|label rest IH]; intros i total H.
  - simpl in H. injection H as <-. cbn. by rewrite Z.add_0_r.
  - cbn [sum_field_widths] in H.
    destruct (lf !! i) as [w|] eqn:Hw; [|done]. cbn [mbind option_bind] in H.
    apply IH in H. rewrite H, (drop_S _ _ _ Hw), to_int_add_l.
    cbn [counted_fields_width]. f_equal. lia.
Qed.

Lemma print_field_labels_Some i rest (lf : list Z) field_separator s :
  print_field_labels i rest lf field_separator = Some s ->
  Z.of_nat (String.length s)
  = Z.of_nat (length rest) * Z.of_nat (String.length field_separator)
    + printed_fields_width rest (drop i lf).
Proof.
  revert i s. induction rest as [|label rest IH]; intros i s H.
  - simpl in H. injection H as <-. cbn. lia.
  - cbn [print_field_labels] in H.
    destruct (lf !! i) as [w|] eqn:Hw; [|done]. cbn [mbind option_bind] in H.
    destruct (print_field_labels (S i) rest lf field_separator) as [tail|] eqn:Ht;
      [|done].
    cbn [mbind option_bind] in H. injection H as <-.
    apply IH in Ht. rewrite (drop_S _ _ _ Hw). cbn [printed_fields_width length].
    rewrite !string_app_length, !Nat2Z.inj_add, setw_length, Ht, Nat2Z.inj_succ. lia.
Qed.

Lemma sum_field_widths_is_Some i rest (lf : list Z) total :
  (i + length rest <= length lf)%nat -> is_Some (sum_field_widths i rest lf total).
Proof.
  revert i total. induction rest as [|label rest IH]; intros i total Hlen; [by eexists |].
  cbn [sum_field_widths length] in *.
  destruct (lookup_lt_is_Some_2 lf i ltac:(lia)) as [w ->]. cbn [mbind option_bind].
  apply IH. lia.
Qed.

Lemma print_field_labels_is_Some i rest (lf : list Z) field_separator :
  (i + length rest <= length lf)%nat ->
  is_Some (print_field_labels i rest lf field_separator).
Proof.
  revert i. induction rest as [|label rest IH]; intros i Hlen; [by eexists |].
  cbn [print_field_labels length] in *.
  destruct (lookup_lt_is_Some_2 lf i ltac:(lia)) as [w ->]. cbn [mbind option_bind].
  destruct (IH (S i) ltac:(lia)) as [tail ->]. by eexists.
Qed.

(** [PrintHeader] reads [len_fields] in range as soon as every field label
    has a tracked width. *)
Lemma PrintHeader_defined field_separator t :
  (length (FieldLabels t) <= length (len_fields t))%nat ->
  is_Some (PrintHeader field_separator t).
Proof.
  intros Hlen. unfold PrintHeader. destruct (Messages t) as [|m0 ms]; [by eexists |].
  destruct (sum_field_widths_is_Some 0 (FieldLabels t) (len_fields t)
              (to_int (Z.of_nat (String.length hdr_ind)
                       + Z.of_nat (String.length (DateTime_ToString m0))
                       + len_seqid t + len_stamp t + len_frameid t)) ltac:(lia))
    as [total ->].
  cbn [mbind option_bind].
  destruct (print_field_labels_is_Some 0 (FieldLabels t) (len_fields t)
              field_separator ltac:(lia)) as [fields ->].
  by eexists.
Qed.

Lemma header_prefix_length field_separator len_datetime t :
  Z.of_nat (String.length (header_prefix field_separator len_datetime t))
  = 2 * Z.of_nat (String.length field_separator) + 5 + Z.max len_datetime 15
    + (if has_header t
       then 3 * Z.of_nat (String.length field_separator)
            + Z.max (len_seqid t) 5 + Z.max (len_stamp t) 10 + Z.max (len_frameid t) 5
       else 0).
Proof.
  unfold header_prefix. destruct (has_header t);
    rewrite !string_app_length, !Nat2Z.inj_add, !setw_length; cbn; lia.
Qed.

(** The line [PrintHeader] writes and the length it returns, side by
    side. *)
Lemma PrintHeader_lengths field_separator t m0 ms header n :
  Messages t = m0 :: ms ->
  PrintHeader field_separator t = Some (header, n) ->
  let sep := Z.of_nat (String.length field_separator) in
  let dt := Z.of_nat (String.length (DateTime_ToString m0)) in
  let k := Z.of_nat (length (FieldLabels t)) in
  exists line,
    header = [line]
    /\ Z.of_nat (String.length line)
       = (3 + k) * sep + 5 + Z.max dt 15
         + (if has_header t
            then 3 * sep + Z.max (len_seqid t) 5 + Z.max (len_stamp t) 10
                 + Z.max (len_frameid t) 5
            else 0)
         + printed_fields_width (FieldLabels t) (len_fields t)
    /\ n = to_int (5 + dt + len_seqid t + len_stamp t + len_frameid t
                   + counted_fields_width (FieldLabels t) (len_fields t)
                   + (6 + k) * sep).
Proof.
  intros HM H. cbn zeta. unfold PrintHeader in H. rewrite HM in H.
  destruct (sum_field_widths _ _ _ _) as [total|] eqn:Hsum; [|done].
  cbn [mbind option_bind] in H.
  destruct (print_field_labels _ _ _ _) as [fields|] eqn:Hfields; [|done].
  cbn [mbind option_bind] in H. injection H as <- <-.
  apply sum_field_widths_Some in Hsum. apply print_field_labels_Some in Hfields.
  rewrite drop_0 in Hsum, Hfields.
  eexists. split; [done |]. split.
  - rewrite !string_app_length, !Nat2Z.inj_add, header_prefix_length, Hfields.
    destruct (has_header t); lia.
  - rewrite <- (to_int_add_l total), Hsum.
    rewrite (to_int_add_l _ (counted_fields_width _ _)), to_int_add_l.
    done.
Qed.

Lemma printed_counted_fields_width labels (widths : list Z) :
  (forall (i : nat) label w,
     labels !! i = Some label -> widths !! i = Some w ->
     Z.of_nat (String.length label) <= w) ->
  printed_fields_width labels widths = counted_fields_width labels widths.
Proof.
  revert widths. induction labels as [|label labels IH]; intros widths Hcover; [done |].
  destruct widths as [|w widths]; [done |]. cbn.
  rewrite IH by (intros i; apply (Hcover (S i))).
  pose proof (Hcover 0%nat label w eq_refl eq_refl). lia.
Qed.

(** With the header triple, a time stamp at least as wide as its label and
    finalized widths, the returned length is the length of the line. *)
Lemma PrintHeader_length_with_triple field_separator t m0 ms line n :
  Messages t = m0 :: ms ->
  has_header t = true ->
  15 <= Z.of_nat (String.length (DateTime_ToString m0)) ->
  5 <= len_seqid t -> 10 <= len_stamp t -> 5 <= len_frameid t ->
  (forall (i : nat) label w,
     FieldLabels t !! i = Some label -> len_fields t !! i = Some w ->
     Z.of_nat (String.length label) <= w) ->
  Z.of_nat (String.length line) <= INT_MAX ->
  PrintHeader field_separator t = Some ([line], n) ->
  n = Z.of_nat (String.length line).
Proof.
  intros HM Hh Hdt Hseq Hstamp Hfrid Hcover Hmax H.
  destruct (PrintHeader_lengths _ _ _ _ _ _ HM H) as (line' & [= <-] & Hline & ->).
  rewrite Hh, printed_counted_fields_width in Hline by done.
  rewrite <- (to_int_id (Z.of_nat (String.length line)))
    by (unfold INT_MIN, INT_MAX in *; lia).
  f_equal. lia.
Qed.

(** Without the header triple the returned length still counts the three
    triple columns and their separators, which the line does not have. *)
Lemma PrintHeader_length_without_triple field_separator t m0 ms line n :
  Messages t = m0 :: ms ->
  has_header t = false ->
  5 <= len_seqid t -> 10 <= len_stamp t -> 5 <= len_frameid t ->
  (forall (i : nat) label w,
     FieldLabels t !! i = Some label -> len_fields t !! i = Some w ->
     Z.of_nat (String.length label) <= w) ->
  5 + Z.of_nat (String.length (DateTime_ToString m0))
  + len_seqid t + len_stamp t + len_frameid t
  + counted_fields_width (FieldLabels t) (len_fields t)
  + (6 + Z.of_nat (length (FieldLabels t))) * Z.of_nat (String.length field_separator)
  <= INT_MAX ->
  PrintHeader field_separator t = Some ([line], n) ->
  Z.of_nat (String.length line) + 5 + 3 * Z.of_nat (String.length field_separator) <= n.
Proof.
  intros HM Hh Hseq Hstamp Hfrid Hcover Hmax H.
  destruct (PrintHeader_lengths _ _ _ _ _ _ HM H) as (line' & [= <-] & Hline & ->).
  rewrite Hh, printed_counted_fields_width in Hline by done.
  assert (0 <= counted_fields_width (FieldLabels t) (len_fields t)) as Hpos.
  { rewrite <- printed_counted_fields_width by done.
    clear. generalize (len_fields t). induction (FieldLabels t) as [|l ls IH];
      intros [|w ws]; cbn; try lia. specialize (IH ws). lia. }
  rewrite to_int_id by (unfold INT_MIN, INT_MAX in *; lia). lia.
Qed.

End HeaderLength.

(** ** Runs on the reference instance *)

Section ReferenceRuns.
Import Reference.
Local Existing Instance ref_externals.

(** The example of the specification: the header
    [%time,field.header.seq,field.header.stamp,field.header.frame_id,field.x]
    gives the field labels ["x"] and the header triple. *)
Example triple_topic_labels :
  FieldLabels triple_topic = ["x"] /\ HasHeaderField triple_topic = true
  /\ IsFaultTopic triple_topic = true /\ length (Messages triple_topic) = 2%nat.
Proof. vm_compute. done. Qed.

(** C1, counterexample.  A header line with a generic field and no data
    row is a well-formed file; its load succeeds with one field label and no
    tracked width. *)
Lemma header_only_sizes_differ :
  let r := ReadFromFile "topic.csv" (Some header_only_file) (new_Topic "N/A") in
  Forall (fits (Tokenize "%time,field.x" CSVDelimiter)) []
  /\ status r = true
  /\ length (FieldLabels (loaded r)) = 1%nat
  /\ length (len_fields (loaded r)) = 0%nat.
Proof. cbn zeta. split; [constructor |]. vm_compute. done. Qed.

(** The amended C1 on [plain_file], whose one data row fits its header. *)
Lemma field_labels_and_widths_same_size_witness :
  Forall (fits (Tokenize "%time,field.x" CSVDelimiter)) ["1537285151280629639,3.14"]
  /\ (forall tokens,
        length tokens = length (Tokenize "%time,field.x" CSVDelimiter) ->
        length (l_fields (Message_TokensToMessage tokens
                            (Tokenize "%time,field.x" CSVDelimiter)))
        = length (normalized_labels (Tokenize "%time,field.x" CSVDelimiter)))
  /\ (let r := ReadFromFile "topic.csv" (Some plain_file) (new_Topic "N/A") in
      status r = true
      /\ length (FieldLabels (loaded r)) = length (len_fields (loaded r)))
  /\ len_fields (loaded (ReadFromFile "topic.csv" (Some ["%time,field.x"])
                           (new_Topic "N/A"))) = [].
Proof.
  assert (Forall (fits (Tokenize "%time,field.x" CSVDelimiter))
            ["1537285151280629639,3.14"]) as Hfit
    by (repeat (first [apply Forall_nil_2 | apply Forall_cons_2; [vm_compute; lia |]])).
  assert (forall tokens,
            length tokens = length (Tokenize "%time,field.x" CSVDelimiter) ->
            length (l_fields (Message_TokensToMessage tokens
                                (Tokenize "%time,field.x" CSVDelimiter)))
            = length (normalized_labels (Tokenize "%time,field.x" CSVDelimiter)))
    as Hbuilder
    by (intros [|a [|b [|c tokens]]] H; try (cbv in H; discriminate); reflexivity).
  split; [exact Hfit |]. split; [exact Hbuilder |].
  exact (field_labels_and_widths_same_size ref_externals "topic.csv" "%time,field.x"
           "1537285151280629639,3.14" [] (new_Topic "N/A") Hfit Hbuilder).
Defined.

(** C4, counterexample.  After the load of a header line with a generic
    field and no data row, index 0 has a field label and no tracked
    width. *)
Lemma header_only_label_without_width :
  let t := loaded (ReadFromFile "topic.csv" (Some header_only_file) (new_Topic "N/A")) in
  status (ReadFromFile "topic.csv" (Some header_only_file) (new_Topic "N/A")) = true
  /\ FieldLabels t !! 0%nat = Some "x"
  /\ len_fields t !! 0%nat = None.
Proof. vm_compute. done. Qed.

(** The amended C4 on [triple_file]: the label "x" under a width of 9. *)
Lemma widths_cover_their_labels_witness :
  FieldLabels triple_topic !! 0%nat = Some "x"
  /\ len_fields triple_topic !! 0%nat = Some 9
  /\ Z.of_nat (String.length "x") <= 9
  /\ Z.of_nat (String.length hdr_seq) <= len_seqid triple_topic.
Proof.
  unfold triple_topic, triple_file.
  match goal with
  | |- ?A /\ ?B /\ _ =>
      assert A as Hlabel by (vm_compute; reflexivity);
      assert B as Hwidth by (vm_compute; reflexivity)
  end.
  destruct (widths_cover_their_labels ref_externals "topic.csv"
              "%time,field.header.seq,field.header.stamp,field.header.frame_id,field.x"
              ["1537285151280629639,1,500,odom,3.14";
               "1537285151280629640,2,501,odom,-13.14159"]
              (new_Topic "failure_status-engines"))
    as (Hseq & _ & _ & Hcover).
  split; [exact Hlabel |]. split; [exact Hwidth |].
  split; [exact (Hcover 0%nat "x" 9 Hlabel Hwidth) | exact Hseq].
Defined.

(** C3 on [overflow_file]: one row absorbed, the second one too long. *)
Lemma row_overflow_stops_the_load_witness :
  Forall (fits (Tokenize "a,b" CSVDelimiter)) ["1,2"]
  /\ overflows (Tokenize "a,b" CSVDelimiter) "1,2,3"
  /\ Z.of_nat (length ["1,2"]) < INT_MAX
  /\ (let r := ReadFromFile "topic.csv" (Some ("a,b" :: ["1,2"] ++ "1,2,3" :: ["4,5"]))
                 (new_Topic "N/A") in
      let r0 := ReadFromFile "topic.csv" (Some ("a,b" :: ["1,2"])) (new_Topic "N/A") in
      cerr r = ["Error converting line #2 of 'topic.csv'. Skipping this topic!"]
      /\ Messages (loaded r)
         = map (fun row => row_msg (row_record (Tokenize "a,b" CSVDelimiter) row)) ["1,2"]
      /\ loaded r = loaded r0
      /\ cerr r0 = []
      /\ loaded r
         = finish_load
             (foldl absorb_row
                (start_load "topic.csv" (Name (new_Topic "N/A"))
                   (Tokenize "a,b" CSVDelimiter)) ["1,2"])
      /\ IsInitialized (loaded r) = true).
Proof.
  assert (Forall (fits (Tokenize "a,b" CSVDelimiter)) ["1,2"]) as Hfit
    by (repeat (first [apply Forall_nil_2 | apply Forall_cons_2; [vm_compute; lia |]])).
  assert (overflows (Tokenize "a,b" CSVDelimiter) "1,2,3") as Hbad
    by (vm_compute; lia).
  assert (Z.of_nat (length ["1,2"]) < INT_MAX) as Hmax by (vm_compute; reflexivity).
  split; [exact Hfit |]. split; [exact Hbad |]. split; [exact Hmax |].
  exact (row_overflow_stops_the_load ref_externals "topic.csv" "a,b" ["1,2"] "1,2,3"
           ["4,5"] (new_Topic "N/A") Hfit Hbad Hmax).
Defined.

(** The overflow message of the run above names data row 2. *)
Example overflow_file_message :
  cerr (ReadFromFile "topic.csv" (Some overflow_file) (new_Topic "N/A"))
  = ["Error converting line #2 of 'topic.csv'. Skipping this topic!"].
Proof. vm_compute. done. Qed.

(** C5, counterexample.  The second data row of [overflow_file] has three
    tokens under a header of two columns, and [ReadFromFile] returns
    true. *)
Lemma overflow_returns_true :
  overflows (Tokenize "a,b" CSVDelimiter) "1,2,3"
  /\ status (ReadFromFile "topic.csv" (Some overflow_file) (new_Topic "N/A")) = true
  /\ IsInitialized (loaded (ReadFromFile "topic.csv" (Some overflow_file)
                              (new_Topic "N/A"))) = true.
Proof. split; [vm_compute; lia | vm_compute; done]. Qed.

(** The amended C5 on [overflow_file]. *)
Lemma fatal_errors_reported_witness :
  Forall (fits (Tokenize "a,b" CSVDelimiter)) ["1,2"]
  /\ overflows (Tokenize "a,b" CSVDelimiter) "1,2,3"
  /\ Z.of_nat (length ["1,2"]) < INT_MAX
  /\ (status (ReadFromFile "topic.csv" None (new_Topic "N/A")) = false
      /\ cerr (ReadFromFile "topic.csv" None (new_Topic "N/A"))
         = ["Failed to open '" +:+ "topic.csv" +:+ "' file."])
  /\ (status (ReadFromFile "topic.csv" (Some []) (new_Topic "N/A")) = false
      /\ cerr (ReadFromFile "topic.csv" (Some []) (new_Topic "N/A"))
         = ["Error reading the header from '" +:+ "topic.csv" +:+ "' file."])
  /\ (let r := ReadFromFile "topic.csv" (Some ("a,b" :: ["1,2"] ++ "1,2,3" :: ["4,5"]))
                 (new_Topic "N/A") in
      cerr r = ["Error converting line #2 of 'topic.csv'. Skipping this topic!"]
      /\ status r = true
      /\ IsInitialized (loaded r) = true).
Proof.
  assert (Forall (fits (Tokenize "a,b" CSVDelimiter)) ["1,2"]) as Hfit
    by (repeat (first [apply Forall_nil_2 | apply Forall_cons_2; [vm_compute; lia |]])).
  assert (overflows (Tokenize "a,b" CSVDelimiter) "1,2,3") as Hbad
    by (vm_compute; lia).
  assert (Z.of_nat (length ["1,2"]) < INT_MAX) as Hmax by (vm_compute; reflexivity).
  split; [exact Hfit |]. split; [exact Hbad |]. split; [exact Hmax |].
  exact (fatal_errors_reported ref_externals "topic.csv" "a,b" ["1,2"] "1,2,3"
           ["4,5"] (new_Topic "N/A") Hfit Hbad Hmax).
Defined.

(** C6.  On [plain_topic] (one record, no header triple) [PrintHeader]
    writes a line of 40 characters and returns 69: the returned length also
    counts the three header-triple columns (5 + 10 + 5) and their three
    separators (3 * 3), which the line does not have. *)
Theorem PrintHeader_returns_more_than_it_prints :
  has_header plain_topic = false
  /\ length (Messages plain_topic) = 1%nat
  /\ PrintHeader " | " plain_topic
     = Some ([" | Index |     Date/Time Stamp |    x | "], 69)
  /\ Z.of_nat (String.length " | Index |     Date/Time Stamp |    x | ") = 40.
Proof. vm_compute. done. Qed.

(** On [triple_topic] the returned length is the length of the line. *)
Example PrintHeader_triple_topic :
  PrintHeader " | " triple_topic
  = Some ([" | Index |     Date/Time Stamp | SeqID | Time Stamp | Frame |         x | "],
          74)
  /\ Z.of_nat (String.length
       " | Index |     Date/Time Stamp | SeqID | Time Stamp | Frame |         x | ") = 74.
Proof. vm_compute. done. Qed.

(** [Print(1, 5)] on the two records of [triple_topic]: the header, the
    rule and the line of record 1. *)
Example Print_triple_topic_from_1 :
  Print 1 5 " | " triple_topic
  = Some ([" | Index |     Date/Time Stamp | SeqID | Time Stamp | Frame |         x | ";
           "--------------------------------------------------------------------------";
           " |     1 | 1537285151280629640 |     2 |        501 |  odom | -13.14159 | "],
          1).
Proof. vm_compute. done. Qed.

(** C7 on [triple_topic]: [Print(1, 5)] writes record 1 and returns 1. *)
Lemma Print_writes_selected_records_witness :
  0 <= 1
  /\ 1 + (if 5 <? 0 then Z.of_nat (length (Messages triple_topic)) else 5) <= INT_MAX
  /\ PrintHeader " | " triple_topic
     = Some ([" | Index |     Date/Time Stamp | SeqID | Time Stamp | Frame |         x | "],
             74)
  /\ 0 <= 74
  /\ Print 1 5 " | " triple_topic
     = Some ([" | Index |     Date/Time Stamp | SeqID | Time Stamp | Frame |         x | "]
             ++ [string_fill (Z.to_nat 74) "-"%char]
             ++ record_lines " | " triple_topic 1
                  (selected_records 1 5 (Messages triple_topic)),
             Z.of_nat (length (selected_records 1 5 (Messages triple_topic)))).
Proof.
  assert (0 <= 1) as Hstart by (vm_compute; discriminate).
  assert (1 + (if 5 <? 0 then Z.of_nat (length (Messages triple_topic)) else 5)
          <= INT_MAX) as Hmax by (vm_compute; discriminate).
  assert (PrintHeader " | " triple_topic
          = Some ([" | Index |     Date/Time Stamp | SeqID | Time Stamp | Frame |         x | "],
                  74)) as Hheader by (vm_compute; reflexivity).
  assert (0 <= 74) as Hlen by (vm_compute; discriminate).
  split; [exact Hstart |]. split; [exact Hmax |]. split; [exact Hheader |].
  split; [exact Hlen |].
  exact (proj1 (proj2 (Print_writes_selected_records ref_externals 1 5 " | " triple_topic)
                  _ 74 Hstart Hmax Hheader Hlen)).
Defined.

(** C10 on [triple_topic]: [Print(2, -1)] starts past its two records. *)
Lemma Print_without_records_still_prints_header_witness :
  Messages triple_topic <> []
  /\ 0 <= 2
  /\ (Z.of_nat (length (Messages triple_topic)) <= 2 \/ -1 = 0)
  /\ PrintHeader " | " triple_topic
     = Some ([" | Index |     Date/Time Stamp | SeqID | Time Stamp | Frame |         x | "],
             74)
  /\ 0 <= 74
  /\ exists line,
       [" | Index |     Date/Time Stamp | SeqID | Time Stamp | Frame |         x | "]
       = [line]
       /\ Print 2 (-1) " | " triple_topic
          = Some ([line; string_fill (Z.to_nat 74) "-"%char], 0).
Proof.
  assert (Messages triple_topic <> []) as Hne
    by (intros H; vm_compute in H; discriminate H).
  assert (0 <= 2) as Hstart by (vm_compute; discriminate).
  assert (Z.of_nat (length (Messages triple_topic)) <= 2 \/ -1 = 0) as Hsel
    by (left; vm_compute; discriminate).
  assert (PrintHeader " | " triple_topic
          = Some ([" | Index |     Date/Time Stamp | SeqID | Time Stamp | Frame |         x | "],
                  74)) as Hheader by (vm_compute; reflexivity).
  assert (0 <= 74) as Hlen by (vm_compute; discriminate).
  split; [exact Hne |]. split; [exact Hstart |]. split; [exact Hsel |].
  split; [exact Hheader |]. split; [exact Hlen |].
  exact (Print_without_records_still_prints_header ref_externals 2 (-1) " | "
           triple_topic _ 74 Hne Hstart Hsel Hheader Hlen).
Defined.

End ReferenceRuns.

(** ** More on loading: outcome, reloading, the constructor *)

Section LoadOutcome.
Context {ext : Externals}.

(** The row loop absorbs the rows up to the first one that overflows, and
    writes one line to [std::cerr] exactly when there is such a row. *)
Lemma read_rows_split filename rows line_number t :
  exists pre post,
    rows = pre ++ post
    /\ Forall (fits (orig_field_labels t)) pre
    /\ fst (read_rows filename rows line_number t) = foldl absorb_row t pre
    /\ match post with
       | [] => snd (read_rows filename rows line_number t) = []
       | bad :: _ =>
           overflows (orig_field_labels t) bad
           /\ exists msg, snd (read_rows filename rows line_number t) = [msg]
       end.
Proof.
  revert line_number t. induction rows as [|row rows IH]; intros k t.
  - by exists [], [].
  - cbn [read_rows]. rewrite pad_tokens_spec by done.
    fold (row_tokens (orig_field_labels t) row).
    destruct (Nat.ltb_spec (length (orig_field_labels t))
                (length (row_tokens (orig_field_labels t) row))) as [Hlt|Hge].
    + exists [], (row :: rows). split; [done |]. split; [constructor |].
      split; [done |]. split; [|by eexists].
      rewrite row_tokens_length in Hlt. unfold overflows. lia.
    + destruct (IH (to_int (k + 1)) (absorb_row t row))
        as (pre & post & -> & Hfit & Hfst & Hpost).
      exists (row :: pre), post. split; [done |]. split.
      { constructor; [|exact Hfit]. rewrite row_tokens_length in Hge.
        unfold fits. lia. }
      split; [exact Hfst | exact Hpost].
Qed.

Lemma fits_not_overflows labels line : fits labels line -> overflows labels line -> False.
Proof. unfold fits, overflows. lia. Qed.

(** The load of a file with a header line, by its rows. *)
Lemma ReadFromFile_split (filename : string) line rows t :
  exists pre post,
    rows = pre ++ post
    /\ Forall (fits (Tokenize line CSVDelimiter)) pre
    /\ loaded (ReadFromFile filename (Some (line :: rows)) t)
       = finish_load
           (foldl absorb_row
              (start_load filename (Name t) (Tokenize line CSVDelimiter)) pre)
    /\ status (ReadFromFile filename (Some (line :: rows)) t) = true
    /\ match post with
       | [] => cerr (ReadFromFile filename (Some (line :: rows)) t) = []
       | bad :: _ =>
           overflows (Tokenize line CSVDelimiter) bad
           /\ exists msg, cerr (ReadFromFile filename (Some (line :: rows)) t) = [msg]
       end.
Proof.
  rewrite ReadFromFile_header.
  destruct (read_rows_split filename rows 0
              (start_load filename (Name t) (Tokenize line CSVDelimiter)))
    as (pre & post & Hrows & Hfit & Hfst & Hpost).
  exists pre, post. destruct (read_rows _ _ _ _) as [t' errs]. cbn in *.
  rewrite Hfst. done.
Qed.

End LoadOutcome.

(** X1.  The status [ReadFromFile] returns is the initialization flag it
    leaves, and it is true exactly when the file opened and had a header
    line.  [std::cerr] gets at most one line, and none exactly when the file
    opened, had a header line, and no data row has more tokens than the
    header. *)
Theorem ReadFromFile_outcome :
  forall (ext : Externals) (filename : string) (ifs : option (list string))
         (t : Topic),
    let r := ReadFromFile filename ifs t in
    status r = IsInitialized (loaded r)
    /\ (status r = true <-> exists line rows, ifs = Some (line :: rows))
    /\ (length (cerr r) <= 1)%nat
    /\ (cerr r = [] <->
        exists line rows,
          ifs = Some (line :: rows)
          /\ Forall (fits (Tokenize line CSVDelimiter)) rows).
Proof.
  intros ext filename ifs t. cbn zeta.
  destruct ifs as [[|line rows]|].
  - cbn. split; [done |]. split; [split; [done | by intros (? & ? & ?)] |].
    split; [lia |]. split; [done | by intros (? & ? & ? & _)].
  - destruct (ReadFromFile_split filename line rows t)
      as (pre & post & Hrows & Hfit & Hloaded & Hstatus & Hpost).
    rewrite Hstatus, Hloaded.
    destruct (finish_load_fields
                (foldl absorb_row
                   (start_load filename (Name t) (Tokenize line CSVDelimiter)) pre))
      as (_ & _ & _ & _ & _ & _ & Hinit).
    unfold IsInitialized. rewrite Hinit.
    split; [done |]. split; [split; [by eexists _, _ | done] |].
    destruct post as [|bad post].
    + rewrite Hpost. split; [cbn; lia |]. split; [|done].
      intros _. exists line, rows. split; [done |].
      rewrite Hrows, app_nil_r. exact Hfit.
    + destruct Hpost as (Hbad & msg & ->). split; [cbn; lia |].
      split; [done |]. intros (line' & rows' & [= <- <-] & Hall).
      rewrite Hrows in Hall. apply Forall_app in Hall as [_ Hall].
      inversion Hall as [|? ? Hfits _]; subst.
      destruct (fits_not_overflows _ _ Hfits Hbad).
  - cbn. split; [done |]. split; [split; [done | by intros (? & ? & ?)] |].
    split; [lia |]. split; [done | by intros (? & ? & ? & _)].
Qed.

Section ReferenceArgument.
Context {ext : Externals}.

(** [ReadFromFile] by what its argument is bound to: the file name it
    stores and the file name it shows in its messages. *)
Lemma ReadFromFile_by_argument (filename : StringRef) ifs t :
  ReadFromFile filename ifs t =
  let stored := match filename with OwnString s => s | _ => "" end in
  let shown :=
    match filename with
    | OwnString s => s
    | TopicName => Name t
    | TopicFileName => ""
    end in
  match ifs with
  | None =>
      mkLoadResult (start_load stored (Name t) []) false
        ["Failed to open '" +:+ shown +:+ "' file."]
  | Some [] =>
      mkLoadResult (start_load stored (Name t) []) false
        ["Error reading the header from '" +:+ shown +:+ "' file."]
  | Some (line :: rows) =>
      let '(t', errs) :=
        read_rows shown rows 0 (start_load stored (Name t) (Tokenize line CSVDelimiter)) in
      mkLoadResult (finish_load t') true errs
  end.
Proof.
  destruct filename, ifs as [[|line rows]|]; cbn; try done;
    by destruct (read_rows _ _ _ _).
Qed.

Lemma ReadFromFile_names (filename : StringRef) ifs t :
  Name (loaded (ReadFromFile filename ifs t)) = Name t
  /\ FileName (loaded (ReadFromFile filename ifs t))
     = match filename with OwnString s => s | _ => "" end.
Proof.
  rewrite ReadFromFile_by_argument. cbn zeta.
  destruct ifs as [[|line rows]|]; [done | | done].
  set (shown := match filename with OwnString s => s | TopicName => Name t
                | TopicFileName => "" end).
  set (t0 := start_load _ (Name t) (Tokenize line CSVDelimiter)).
  destruct (read_rows_absorbs shown rows 0 t0) as (pre & post & _ & Hpre).
  destruct (read_rows shown rows 0 t0) as [t' errs]. cbn [fst loaded] in *. subst t'.
  destruct (finish_load_fields (foldl absorb_row t0 pre)) as (-> & -> & _).
  by destruct (foldl_absorb_kept pre t0) as (-> & -> & _).
Qed.

Lemma finish_load_with_FileName f t :
  finish_load (with_FileName f t) = with_FileName f (finish_load t).
Proof.
  unfold finish_load, ProcessHeader, with_FileName. cbn.
  by destruct (scan_labels _ _ _).
Qed.

Lemma read_rows_with_FileName shown rows line_number f t :
  read_rows shown rows line_number (with_FileName f t)
  = (with_FileName f (fst (read_rows shown rows line_number t)),
     snd (read_rows shown rows line_number t)).
Proof.
  revert line_number t. induction rows as [|row rows IH]; intros k t; [done |].
  cbn [read_rows].
  change (orig_field_labels (with_FileName f t)) with (orig_field_labels t).
  rewrite pad_tokens_spec by done. fold (row_tokens (orig_field_labels t) row).
  destruct (_ <? _)%nat; [done |].
  change (read_rows shown rows (to_int (k + 1)) (with_FileName f (absorb_row t row))
          = (with_FileName f
               (fst (read_rows shown rows (to_int (k + 1)) (absorb_row t row))),
             snd (read_rows shown rows (to_int (k + 1)) (absorb_row t row)))).
  apply IH.
Qed.

End ReferenceArgument.

(** X2.  Whatever its argument is bound to, a load depends on what the
    topic held before only through [Name], and keeps [Name]: a load that
    follows another load, failed or not, gives what it gives on the
    original topic.  [FileName] is left as the argument's string when that
    is a string of the caller's own, and empty when the argument is the
    topic's own [Name] or [FileName], which [Clear()] has emptied by the
    time it is stored. *)
Theorem reload_leaves_no_trace :
  forall (ext : Externals) (filename1 filename2 : StringRef)
         (ifs1 ifs2 : option (list string)) (t : Topic),
    ReadFromFile filename2 ifs2 t = ReadFromFile filename2 ifs2 (new_Topic (Name t))
    /\ Name (loaded (ReadFromFile filename1 ifs1 t)) = Name t
    /\ FileName (loaded (ReadFromFile filename1 ifs1 t))
       = match filename1 with OwnString s => s | _ => "" end
    /\ ReadFromFile filename2 ifs2 (loaded (ReadFromFile filename1 ifs1 t))
       = ReadFromFile filename2 ifs2 t.
Proof.
  intros ext filename1 filename2 ifs1 ifs2 t.
  assert (forall (f : StringRef) i (u : Topic),
            ReadFromFile f i u = ReadFromFile f i (new_Topic (Name u)))
    as Hfresh by (intros f i u; by rewrite !ReadFromFile_by_argument).
  destruct (ReadFromFile_names filename1 ifs1 t) as [Hname Hfile].
  split; [apply Hfresh |]. split; [exact Hname |]. split; [exact Hfile |].
  rewrite (Hfresh _ _ (loaded _)), Hname. symmetry. apply Hfresh.
Qed.

(** X16.  A call whose argument is the topic's own [FileName] is the call
    with the empty string: the member is empty when it is stored, opened
    and shown.  A call whose argument is the topic's own [Name] returns
    the status and writes the messages of the call with that name as a
    string of its own, and leaves the same topic but for [FileName], which
    is empty. *)
Theorem ReadFromFile_on_own_members :
  forall (ext : Externals) (ifs : option (list string)) (t : Topic),
    ReadFromFile TopicFileName ifs t = ReadFromFile (OwnString "") ifs t
    /\ status (ReadFromFile TopicName ifs t)
       = status (ReadFromFile (OwnString (Name t)) ifs t)
    /\ cerr (ReadFromFile TopicName ifs t)
       = cerr (ReadFromFile (OwnString (Name t)) ifs t)
    /\ loaded (ReadFromFile TopicName ifs t)
       = with_FileName "" (loaded (ReadFromFile (OwnString (Name t)) ifs t)).
Proof.
  intros ext ifs t. rewrite !ReadFromFile_by_argument. cbn zeta.
  split; [done |].
  destruct ifs as [[|line rows]|]; [done | | done].
  change (start_load "" (Name t) (Tokenize line CSVDelimiter))
    with (with_FileName ""
            (start_load (Name t) (Name t) (Tokenize line CSVDelimiter))).
  rewrite read_rows_with_FileName.
  destruct (read_rows _ _ _ _) as [t' errs]. cbn [fst snd status cerr loaded].
  by rewrite finish_load_with_FileName.
Qed.

(** X3.  When no data row has more tokens than the header, every row
    becomes a record, in file order: the record the builder makes of the
    row's tokens followed by as many empty strings as the row lacks, so
    that it always gets exactly as many tokens as the header has columns.
    The load succeeds and writes nothing to [std::cerr]. *)
Theorem fitting_rows_all_become_messages :
  forall (ext : Externals) (filename line : string) (rows : list string) (t : Topic),
    Forall (fits (Tokenize line CSVDelimiter)) rows ->
    let labels := Tokenize line CSVDelimiter in
    let padded row :=
      Tokenize row CSVDelimiter
      ++ replicate (length labels - length (Tokenize row CSVDelimiter)) "" in
    let r := ReadFromFile filename (Some (line :: rows)) t in
    status r = true
    /\ cerr r = []
    /\ Messages (loaded r)
       = map (fun row => row_msg (Message_TokensToMessage (padded row) labels)) rows
    /\ length (Messages (loaded r)) = length rows
    /\ Forall (fun row => length (padded row) = length labels) rows.
Proof.
  intros ext filename line rows t Hfit. cbn zeta.
  rewrite ReadFromFile_header, read_rows_fit by done. cbn [status cerr loaded].
  set (t0 := start_load filename (Name t) (Tokenize line CSVDelimiter)).
  destruct (finish_load_fields (foldl absorb_row t0 rows)) as (_ & _ & -> & _).
  rewrite foldl_absorb_Messages. cbn [t0 start_load Messages orig_field_labels app].
  split; [done |]. split; [done |]. split; [done |].
  split; [by rewrite length_map |].
  eapply Forall_impl; [exact Hfit |]. intros row Hrow. cbn beta.
  rewrite length_app, length_replicate. unfold fits in Hrow. lia.
Qed.

Section LoadedState.
Context {ext : Externals}.

Lemma ReadFromFile_Name (filename : string) ifs t :
  Name (loaded (ReadFromFile filename ifs t)) = Name t.
Proof.
  destruct ifs as [[|line rows]|]; [done | | done].
  destruct (ReadFromFile_split filename line rows t) as (pre & post & _ & _ & -> & _).
  destruct (finish_load_fields
              (foldl absorb_row
                 (start_load filename (Name t) (Tokenize line CSVDelimiter)) pre))
    as (-> & _).
  by destruct (foldl_absorb_kept pre
                 (start_load filename (Name t) (Tokenize line CSVDelimiter)))
       as (-> & _).
Qed.

Lemma ReadFromFile_initialized (filename : string) ifs t :
  IsInitialized (loaded (ReadFromFile filename ifs t)) = true
  <-> exists line rows, ifs = Some (line :: rows).
Proof.
  destruct ifs as [[|line rows]|].
  - cbn. split; [done | by intros (? & ? & ?)].
  - destruct (ReadFromFile_split filename line rows t) as (pre & post & _ & _ & -> & _).
    destruct (finish_load_fields
                (foldl absorb_row
                   (start_load filename (Name t) (Tokenize line CSVDelimiter)) pre))
      as (_ & _ & _ & _ & _ & _ & Hinit).
    unfold IsInitialized. rewrite Hinit. split; [by eexists _, _ | done].
  - cbn. split; [done | by intros (? & ? & ?)].
Qed.

(** A column counts for the header triple when it is one of the three
    markers and is not the time column. *)
Lemma in_header_triple_classify label :
  in_header_triple (classify label) = true
  <-> label <> "%time" /\ header_triple_marker label.
Proof.
  unfold classify, header_triple_marker.
  repeat case_decide; cbn [in_header_triple];
    try (destruct (strip_prefix CSVFieldsPrefix label); cbn [in_header_triple]);
    split; try done; try tauto; intros [? [?|[?|?]]]; done.
Qed.

Lemma triple_present_iff labels :
  triple_present labels = true
  <-> exists label, label ∈ labels /\ label <> "%time" /\ header_triple_marker label.
Proof.
  unfold triple_present. rewrite existsb_exists. split.
  - intros (label & Hin & Hc). exists label. split; [by apply list_elem_of_In |].
    by apply in_header_triple_classify.
  - intros (label & Hin & Hc). exists label. split; [by apply list_elem_of_In |].
    by apply in_header_triple_classify.
Qed.

(** A normalized label is a raw label, as it is or without the prefix. *)
Lemma normalized_label_classify label l :
  normalized_label (classify label) = Some l ->
  label = l \/ label = CSVFieldsPrefix +:+ l.
Proof.
  unfold classify. repeat case_decide; try done.
  destruct (strip_prefix CSVFieldsPrefix label) as [stripped|] eqn:Hs; cbn.
  - intros [= <-]. right. by apply strip_prefix_Some.
  - intros [= <-]. by left.
Qed.

Lemma normalized_labels_length labels :
  (length (normalized_labels labels) <= length labels)%nat.
Proof.
  induction labels as [|label labels IH]; [done |].
  rewrite normalized_labels_cons. destruct (normalized_label _); cbn; lia.
Qed.

End LoadedState.

(** X4.  After a load that got past the header line, [FieldLabels] and
    [HasHeaderField] are read off the header line alone, whatever the data
    rows and whatever the topic held before: there are at most as many
    field labels as header columns, each is a raw label as it is or without
    the field-name prefix, and [HasHeaderField] is true exactly when some
    column other than the time column is one of the three header-triple
    markers (one of them is enough). *)
Theorem loaded_labels_come_from_the_header :
  forall (ext : Externals) (filename line : string) (rows : list string) (t : Topic),
    let labels := Tokenize line CSVDelimiter in
    let t' := loaded (ReadFromFile filename (Some (line :: rows)) t) in
    FieldLabels t' = normalized_labels labels
    /\ (length (FieldLabels t') <= length labels)%nat
    /\ (forall l, l ∈ FieldLabels t' ->
        exists label, label ∈ labels /\ (label = l \/ label = CSVFieldsPrefix +:+ l))
    /\ (HasHeaderField t' = true <->
        exists label, label ∈ labels /\ label <> "%time" /\ header_triple_marker label).
Proof.
  intros ext filename line rows t. cbn zeta.
  destruct (ReadFromFile_labels filename line rows t) as (_ & HFL & Hhh).
  unfold HasHeaderField. rewrite HFL, Hhh.
  split; [done |]. split; [apply normalized_labels_length |].
  split; [|apply triple_present_iff].
  intros l Hl. apply list_elem_of_omap in Hl as (label & Hin & Hn).
  exists label. split; [done |]. by apply normalized_label_classify.
Qed.

(** X5.  A load that fails (the file does not open, or has no header line)
    empties the topic: no record, no field label, no flag and no width of
    an earlier load is left.  Only the name is kept; the file name is the
    argument's string when that is a string of the caller's own, and empty
    when the argument is the topic's own [Name] or [FileName]. *)
Theorem failed_load_empties_the_topic :
  forall (ext : Externals) (filename : StringRef) (ifs : option (list string))
         (t : Topic),
    let t' := loaded (ReadFromFile filename ifs t) in
    status (ReadFromFile filename ifs t) = false ->
    t' = {| Name := Name t;
            FileName := match filename with OwnString s => s | _ => "" end;
            FieldLabels := []; Messages := [];
            is_initialized := false; is_fault_topic := false;
            len_seqid := 0; len_stamp := 0; len_frameid := 0; len_fields := [];
            orig_field_labels := []; has_header := false |}.
Proof.
  intros ext filename ifs t. cbn zeta. rewrite ReadFromFile_by_argument. cbn zeta.
  destruct ifs as [[|line rows]|]; [done | | done].
  by destruct (read_rows _ _ _ _).
Qed.

(** X6.  The constructor [Topic(filename, topic_name)] gives a topic of
    that name.  With an empty file name it loads nothing and writes
    nothing; otherwise it is [ReadFromFile] on a fresh topic.  The topic is
    initialized exactly when the file name is not empty and the file opened
    and had a header line. *)
Theorem Topic_ctor_outcome :
  forall (ext : Externals) (filename : string) (ifs : option (list string))
         (topic_name : string),
    let c := Topic_ctor filename ifs topic_name in
    Name (fst c) = topic_name
    /\ (IsInitialized (fst c) = true <->
        filename <> "" /\ exists line rows, ifs = Some (line :: rows))
    /\ (filename = "" -> c = (new_Topic topic_name, []))
    /\ (filename <> "" ->
        forall t, Name t = topic_name ->
          c = (loaded (ReadFromFile filename ifs t), cerr (ReadFromFile filename ifs t))).
Proof.
  intros ext filename ifs topic_name. cbn zeta. unfold Topic_ctor.
  destruct (String.eqb_spec filename "") as [->|Hne]; cbn [negb fst snd].
  - split; [done |]. split; [split; [done | by intros [? _]] |].
    split; [done | done].
  - split; [apply ReadFromFile_Name |].
    split; [rewrite ReadFromFile_initialized; tauto |].
    split; [done |]. intros _ t <-. done.
Qed.

(** ** More on the tracked widths *)

Section WidthsExact.
Context {ext : Externals}.

(** What the loop of [TokensToMessage] leaves at each index. *)
Lemma merge_row_widths_lookup i rest (lf : list Z) j :
  (i <= length lf)%nat ->
  merge_row_widths i rest lf !! j =
  if (j <? i)%nat then lf !! j
  else match lf !! j, rest !! (j - i)%nat with
       | Some a, Some b => Some (Z.max a b)
       | Some a, None => Some a
       | None, o => o
       end.
Proof.
  revert i lf. induction rest as [|w rest IH]; intros i lf Hi.
  - cbn [merge_row_widths]. rewrite lookup_nil.
    destruct (j <? i)%nat; [done |]. by destruct (lf !! j).
  - cbn [merge_row_widths].
    destruct (Nat.eqb_spec i (length lf)) as [->|Hne].
    + rewrite IH by (rewrite length_app; cbn; lia).
      destruct (Nat.ltb_spec j (S (length lf))) as [Hlt|Hge].
      * destruct (Nat.ltb_spec j (length lf)) as [Hlt'|Hge'].
        -- by rewrite lookup_app_l.
        -- assert (j = length lf) as -> by lia.
           rewrite lookup_app_r, Nat.sub_diag by lia.
           rewrite (lookup_ge_None_2 lf) by lia. done.
      * destruct (Nat.ltb_spec j (length lf)); [lia |].
        rewrite (lookup_ge_None_2 (lf ++ [w])) by (rewrite length_app; cbn; lia).
        rewrite (lookup_ge_None_2 lf) by lia.
        replace (j - length lf)%nat with (S (j - S (length lf))) by lia. done.
    + destruct (lookup_lt_is_Some_2 lf i ltac:(lia)) as [old Hold]. rewrite Hold.
      rewrite IH by (rewrite length_insert; lia). rewrite std_max_max.
      destruct (Nat.ltb_spec j (S i)) as [Hlt|Hge].
      * destruct (Nat.ltb_spec j i) as [Hlt'|Hge'].
        -- by rewrite list_lookup_insert_ne by lia.
        -- assert (j = i) as -> by lia.
           rewrite list_lookup_insert_eq by lia.
           by rewrite Hold, Nat.sub_diag.
      * destruct (Nat.ltb_spec j i); [lia |].
        rewrite list_lookup_insert_ne by lia.
        replace (j - i)%nat with (S (j - S i)) by lia. done.
Qed.

(** What the last loop of [ProcessHeader] leaves at each index. *)
Lemma raise_to_labels_lookup_exact i rest (lf : list Z) j :
  raise_to_labels i rest lf !! j =
  if (j <? i)%nat then lf !! j
  else match lf !! j, rest !! (j - i)%nat with
       | Some a, Some label => Some (Z.max a (Z.of_nat (String.length label)))
       | o, _ => o
       end.
Proof.
  revert i lf. induction rest as [|label rest IH]; intros i lf.
  - cbn [raise_to_labels]. destruct (j <? i)%nat; [done |].
    destruct (lf !! j); [|done]. by destruct (j - i)%nat.
  - cbn [raise_to_labels].
    destruct (Z.ltb_spec (Z.of_nat (length lf)) (Z.of_nat i + 1)) as [Hshort|Hlong].
    + destruct (Nat.ltb_spec j i); [done |].
      by rewrite (lookup_ge_None_2 lf) by lia.
    + destruct (lookup_lt_is_Some_2 lf i ltac:(lia)) as [old Hold]. rewrite Hold.
      rewrite IH, std_max_max.
      destruct (Nat.ltb_spec j (S i)) as [Hlt|Hge].
      * destruct (Nat.ltb_spec j i) as [Hlt'|Hge'].
        -- by rewrite list_lookup_insert_ne by lia.
        -- assert (j = i) as -> by lia.
           rewrite list_lookup_insert_eq by lia.
           by rewrite Hold, Nat.sub_diag.
      * destruct (Nat.ltb_spec j i); [lia |].
        rewrite list_lookup_insert_ne by lia.
        replace (j - i)%nat with (S (j - S i)) by lia. done.
Qed.

Lemma widths_le_refl t : widths_le t t.
Proof. unfold widths_le. repeat split; try lia. intros j a Ha. exists a. split; [done | lia]. Qed.

Lemma widths_le_trans t1 t2 t3 : widths_le t1 t2 -> widths_le t2 t3 -> widths_le t1 t3.
Proof.
  intros (H1 & H2 & H3 & H4) (G1 & G2 & G3 & G4). unfold widths_le.
  repeat split; try lia. intros j a Ha.
  destruct (H4 j a Ha) as (b & Hb & Hab). destruct (G4 j b Hb) as (c & Hc & Hbc).
  exists c. split; [done | lia].
Qed.

(** A row only raises the widths, and raises them to its own. *)
Lemma absorb_row_widths t line :
  widths_le t (absorb_row t line)
  /\ (let rw := row_record (orig_field_labels t) line in
      l_seq rw <= len_seqid (absorb_row t line)
      /\ l_stamp rw <= len_stamp (absorb_row t line)
      /\ l_frid rw <= len_frameid (absorb_row t line)
      /\ (forall (j : nat) (w : Z),
            l_fields rw !! j = Some w ->
            exists b, len_fields (absorb_row t line) !! j = Some b /\ w <= b)).
Proof.
  unfold widths_le. cbn. fold (row_record (orig_field_labels t) line).
  rewrite !std_max_max.
  split; (split; [lia |]; split; [lia |]; split; [lia |]); intros j a Ha;
    rewrite merge_row_widths_lookup by lia; cbn [Nat.ltb Nat.leb];
    rewrite Nat.sub_0_r.
  - rewrite Ha. destruct (l_fields _ !! j) as [b|]; eexists; (split; [done | lia]).
  - rewrite Ha. destruct (len_fields t !! j) as [b|]; eexists; (split; [done | lia]).
Qed.

Lemma foldl_absorb_widths_le rows t : widths_le t (foldl absorb_row t rows).
Proof.
  revert t. induction rows as [|row rows IH]; intros t; [apply widths_le_refl |].
  cbn [foldl]. eapply widths_le_trans; [|apply IH]. apply absorb_row_widths.
Qed.

(** Finalization only raises the widths, keeps them raised in order, and
    leaves them at least as wide as the labels. *)
Lemma finish_load_widths_le t : widths_le t (finish_load t).
Proof.
  destruct (finish_load_widths t) as (H1 & H2 & H3 & H4).
  unfold widths_le. rewrite H1, H2, H3, H4, !std_max_max.
  split; [lia |]. split; [lia |]. split; [lia |]. intros j a Ha.
  rewrite raise_to_labels_lookup_exact. cbn [Nat.ltb Nat.leb]. rewrite Ha.
  destruct (_ !! (j - 0)%nat); eexists; (split; [done | lia]).
Qed.

Lemma finish_load_mono t1 t2 :
  FieldLabels t1 = FieldLabels t2 ->
  orig_field_labels t1 = orig_field_labels t2 ->
  widths_le t1 t2 ->
  widths_le (finish_load t1) (finish_load t2).
Proof.
  intros HFL Horig (H1 & H2 & H3 & H4).
  destruct (finish_load_widths t1) as (A1 & A2 & A3 & A4).
  destruct (finish_load_widths t2) as (B1 & B2 & B3 & B4).
  destruct (finish_load_fields t1) as (_ & _ & _ & _ & F1 & _).
  destruct (finish_load_fields t2) as (_ & _ & _ & _ & F2 & _).
  unfold widths_le. rewrite A1, A2, A3, A4, B1, B2, B3, B4, F1, F2, HFL, Horig.
  rewrite !std_max_max.
  split; [lia |]. split; [lia |]. split; [lia |]. intros j a.
  rewrite !raise_to_labels_lookup_exact. cbn [Nat.ltb Nat.leb].
  destruct (len_fields t1 !! j) as [a1|] eqn:Ha1; [|done].
  destruct (H4 j a1 Ha1) as (b1 & -> & Hle).
  destruct (_ !! (j - 0)%nat); intros [= <-]; eexists; (split; [done | lia]).
Qed.

Lemma finish_load_finalized t :
  let t' := finish_load t in
  5 <= len_seqid t' /\ 10 <= len_stamp t' /\ 5 <= len_frameid t'
  /\ (forall (i : nat) label w,
        FieldLabels t' !! i = Some label -> len_fields t' !! i = Some w ->
        Z.of_nat (String.length label) <= w).
Proof.
  cbn zeta. destruct (finish_load_widths t) as (-> & -> & -> & Hlf).
  rewrite !std_max_max. split; [lia |]. split; [lia |]. split; [lia |].
  intros i label w Hlabel Hw. rewrite Hlf in Hw.
  apply raise_to_labels_lookup in Hw as [_ Hcover].
  apply Hcover; [lia |]. by rewrite Nat.sub_0_r.
Qed.

(** Rows that fit are read one after the other, whatever follows them. *)
Lemma read_rows_app filename rows1 rows2 line_number t :
  Forall (fits (orig_field_labels t)) rows1 ->
  exists line_number',
    read_rows filename (rows1 ++ rows2) line_number t
    = read_rows filename rows2 line_number' (foldl absorb_row t rows1).
Proof.
  revert line_number t. induction rows1 as [|row rows1 IH]; intros k t Hfit.
  - by exists k.
  - inversion Hfit as [|? ? Hrow Hrows]; subst.
    cbn [app read_rows foldl]. rewrite pad_tokens_spec by done.
    fold (row_tokens (orig_field_labels t) row).
    destruct (Nat.ltb_spec (length (orig_field_labels t))
                (length (row_tokens (orig_field_labels t) row))) as [Hlt|_].
    { rewrite row_tokens_length in Hlt. unfold fits in Hrow. lia. }
    apply (IH (to_int (k + 1)) (absorb_row t row)). exact Hrows.
Qed.

End WidthsExact.

(** X7.  [TokensToMessage] returns the record the builder made and takes,
    width by width, the maximum of what the topic had and what the row
    needs: the scalar widths, and [len_fields] index by index, which grows
    to the longer of the two vectors and keeps the entries only one of them
    has.  Records and field labels are not touched. *)
Theorem TokensToMessage_takes_pointwise_maximum :
  forall (ext : Externals) (tokens : VecString) (t : Topic),
    let r := Message_TokensToMessage tokens (orig_field_labels t) in
    let t' := snd (TokensToMessage tokens t) in
    fst (TokensToMessage tokens t) = row_msg r
    /\ len_seqid t' = Z.max (len_seqid t) (l_seq r)
    /\ len_stamp t' = Z.max (len_stamp t) (l_stamp r)
    /\ len_frameid t' = Z.max (len_frameid t) (l_frid r)
    /\ length (len_fields t') = Nat.max (length (len_fields t)) (length (l_fields r))
    /\ (forall j : nat,
          len_fields t' !! j =
          match len_fields t !! j, l_fields r !! j with
          | Some a, Some b => Some (Z.max a b)
          | Some a, None => Some a
          | None, o => o
          end)
    /\ Messages t' = Messages t
    /\ FieldLabels t' = FieldLabels t.
Proof.
  intros ext tokens t. cbn. rewrite !std_max_max.
  split; [done |]. split; [done |]. split; [done |]. split; [done |].
  split; [rewrite merge_row_widths_length by lia; lia |].
  split; [|done]. intros j.
  rewrite merge_row_widths_lookup by lia. cbn [Nat.ltb Nat.leb].
  by rewrite Nat.sub_0_r.
Qed.

(** X8.  [ProcessHeader] raises the three scalar widths to 5, 10 and 5 (the
    lengths of "SeqID", "Time Stamp" and "Frame") and raises each entry of
    [len_fields] that has a field label to the length of that label.  It
    never adds an entry to [len_fields] and changes no entry without a
    label; records, name and initialization flag are not touched. *)
Theorem ProcessHeader_only_raises_widths :
  forall (ext : Externals) (t : Topic),
    let t' := ProcessHeader t in
    len_seqid t' = Z.max (len_seqid t) 5
    /\ len_stamp t' = Z.max (len_stamp t) 10
    /\ len_frameid t' = Z.max (len_frameid t) 5
    /\ length (len_fields t') = length (len_fields t)
    /\ (forall j : nat,
          len_fields t' !! j =
          match len_fields t !! j, FieldLabels t' !! j with
          | Some a, Some label => Some (Z.max a (Z.of_nat (String.length label)))
          | o, _ => o
          end)
    /\ Messages t' = Messages t
    /\ Name t' = Name t
    /\ is_initialized t' = is_initialized t.
Proof.
  intros ext t. cbn zeta. unfold ProcessHeader.
  destruct (scan_labels _ _ _) as [fl hh]. cbn. rewrite !std_max_max.
  split; [done |]. split; [done |]. split; [done |].
  split; [apply raise_to_labels_length |]. split; [|done]. intros j.
  rewrite raise_to_labels_lookup_exact. cbn [Nat.ltb Nat.leb].
  by rewrite Nat.sub_0_r.
Qed.

(** X9.  After a load in which no data row has more tokens than the header,
    every width is at least what each row needed: for every row of the
    file, the three scalar widths the builder reported for it are at most
    the tracked ones, and every field width it reported has a tracked width
    at its index that is at least as large. *)
Theorem widths_cover_every_row :
  forall (ext : Externals) (filename line : string) (rows : list string) (t : Topic)
         (row : string),
    Forall (fits (Tokenize line CSVDelimiter)) rows ->
    row ∈ rows ->
    let t' := loaded (ReadFromFile filename (Some (line :: rows)) t) in
    let rw := row_record (Tokenize line CSVDelimiter) row in
    l_seq rw <= len_seqid t'
    /\ l_stamp rw <= len_stamp t'
    /\ l_frid rw <= len_frameid t'
    /\ (forall (j : nat) (w : Z),
          l_fields rw !! j = Some w ->
          exists b, len_fields t' !! j = Some b /\ w <= b).
Proof.
  intros ext filename line rows t row Hfit Hin. cbn zeta.
  rewrite ReadFromFile_header, read_rows_fit by done. cbn [loaded].
  set (t0 := start_load filename (Name t) (Tokenize line CSVDelimiter)).
  apply list_elem_of_split in Hin as (r1 & r2 & ->).
  rewrite foldl_app. cbn [foldl].
  set (tA := foldl absorb_row t0 r1).
  destruct (absorb_row_widths tA row) as [_ Hrow]. cbn zeta in Hrow.
  assert (orig_field_labels tA = Tokenize line CSVDelimiter) as Horig
    by (subst tA; by rewrite foldl_absorb_orig).
  rewrite Horig in Hrow. destruct Hrow as (Hs & Hst & Hf & Hfields).
  assert (widths_le (absorb_row tA row)
            (finish_load (foldl absorb_row (absorb_row tA row) r2)))
    as (G1 & G2 & G3 & G4).
  { apply (widths_le_trans _ (foldl absorb_row (absorb_row tA row) r2));
      [apply foldl_absorb_widths_le | apply finish_load_widths_le]. }
  split; [lia |]. split; [lia |]. split; [lia |]. intros j w Hw.
  destruct (Hfields j w Hw) as (b & Hb & Hwb).
  destruct (G4 j b Hb) as (c & Hc & Hbc). exists c. split; [done | lia].
Qed.

(** X10.  Rows added to a file never narrow a column: when the rows of a
    file all fit the header, loading the file with any further rows after
    them leaves every width at least what loading the file alone
    leaves. *)
Theorem more_rows_never_narrow_a_column :
  forall (ext : Externals) (filename line : string) (rows1 rows2 : list string)
         (t : Topic),
    Forall (fits (Tokenize line CSVDelimiter)) rows1 ->
    widths_le (loaded (ReadFromFile filename (Some (line :: rows1)) t))
              (loaded (ReadFromFile filename (Some (line :: rows1 ++ rows2)) t)).
Proof.
  intros ext filename line rows1 rows2 t Hfit.
  rewrite !ReadFromFile_header, read_rows_fit by done. cbn [loaded].
  set (t0 := start_load filename (Name t) (Tokenize line CSVDelimiter)).
  destruct (read_rows_app filename rows1 rows2 0 t0 Hfit) as [k ->].
  destruct (read_rows_absorbs filename rows2 k (foldl absorb_row t0 rows1))
    as (pre & post & _ & Hpre).
  destruct (read_rows _ rows2 _ _) as [t2 errs]. cbn [fst loaded] in *. subst t2.
  apply finish_load_mono.
  - by destruct (foldl_absorb_kept pre (foldl absorb_row t0 rows1)) as (_ & _ & -> & _).
  - by rewrite !foldl_absorb_orig.
  - apply foldl_absorb_widths_le.
Qed.

(** X11.  With a record builder that reports one width for each column
    that is neither the time nor a header-triple column, [PrintHeader]
    never reads [len_fields] out of range after a load, whatever the rows:
    either the load left no record and [PrintHeader] returns at once, or a
    row was absorbed and [len_fields] has an entry for every field
    label. *)
Theorem PrintHeader_reads_in_range_after_a_load :
  forall (ext : Externals) (filename line : string) (rows : list string) (t : Topic)
         (field_separator : string),
    (forall tokens,
       length tokens = length (Tokenize line CSVDelimiter) ->
       length (l_fields (Message_TokensToMessage tokens (Tokenize line CSVDelimiter)))
       = length (normalized_labels (Tokenize line CSVDelimiter))) ->
    let t' := loaded (ReadFromFile filename (Some (line :: rows)) t) in
    is_Some (PrintHeader field_separator t')
    /\ (Messages t' = [] \/ length (FieldLabels t') = length (len_fields t')).
Proof.
  intros ext filename line rows t sep Hg. cbn zeta.
  destruct (ReadFromFile_split filename line rows t)
    as (pre & post & _ & Hfit & -> & _).
  set (t0 := start_load filename (Name t) (Tokenize line CSVDelimiter)).
  destruct (finish_load_fields (foldl absorb_row t0 pre))
    as (_ & _ & HM & _ & HFL & _).
  destruct (finish_load_widths (foldl absorb_row t0 pre)) as (_ & _ & _ & Hlf).
  destruct (foldl_absorb_kept pre t0) as (_ & _ & Hkept & _).
  rewrite foldl_absorb_orig, Hkept in HFL. cbn [t0 start_load FieldLabels
    orig_field_labels app] in HFL.
  destruct pre as [|row pre].
  - assert (Messages (finish_load (foldl absorb_row t0 [])) = []) as Hnil
      by (by rewrite HM).
    split; [|by left]. rewrite PrintHeader_no_messages by done. by eexists.
  - assert (length (FieldLabels (finish_load (foldl absorb_row t0 (row :: pre))))
            = length (len_fields (finish_load (foldl absorb_row t0 (row :: pre)))))
      as Hsame.
    { rewrite Hlf, raise_to_labels_length, HFL.
      rewrite (foldl_absorb_len_fields
                 (length (normalized_labels (Tokenize line CSVDelimiter))))
        by done.
      cbn. lia. }
    split; [|by right]. apply PrintHeader_defined. lia.
Qed.

(** X12.  On a topic left by a load, the length [PrintHeader] returns is
    the length of the line it writes, less what the "Date/Time Stamp" label
    overhangs a narrower time stamp, and, when the topic has no header
    triple, plus the three scalar widths and three separators that the line
    does not show (all converted to [int]). *)
Theorem PrintHeader_returned_length :
  forall (ext : Externals) (filename line : string) (rows : list string) (t : Topic)
         (field_separator header_line : string) (m0 : Message) (ms : list Message)
         (n : Z),
    let t' := loaded (ReadFromFile filename (Some (line :: rows)) t) in
    Messages t' = m0 :: ms ->
    PrintHeader field_separator t' = Some ([header_line], n) ->
    let dt := Z.of_nat (String.length (DateTime_ToString m0)) in
    n = to_int (Z.of_nat (String.length header_line)
                - (Z.max dt 15 - dt)
                + (if HasHeaderField t' then 0
                   else len_seqid t' + len_stamp t' + len_frameid t'
                        + 3 * Z.of_nat (String.length field_separator))).
Proof.
  intros ext filename line rows t sep header_line m0 ms n. cbn zeta.
  destruct (ReadFromFile_completed filename line rows t) as (pre & post & _ & ->).
  set (t0 := foldl absorb_row _ pre). intros HM H.
  destruct (finish_load_finalized t0) as (Hseq & Hstamp & Hfrid & Hcover).
  destruct (PrintHeader_lengths _ _ _ _ _ _ HM H) as (line' & [= <-] & Hline & ->).
  rewrite printed_counted_fields_width in Hline by done.
  unfold HasHeaderField. f_equal.
  destruct (has_header (finish_load t0)); lia.
Qed.

(** X13.  When [n_start] is not negative, [n_start] plus the count is an
    [int] and [Print] comes back, the number it returns is the count
    clamped to the records from [n_start] on (all of them for a negative
    [n_messages]): never negative, never more than the topic has.  The
    output has that many lines after the rule and the header line, which is
    there when the topic has a record. *)
Theorem Print_return_value :
  forall (ext : Externals) (n_start n_messages : Z) (field_separator : string)
         (t : Topic) (out : list string) (n : Z),
    0 <= n_start ->
    n_start + (if n_messages <? 0 then Z.of_nat (length (Messages t))
               else n_messages) <= INT_MAX ->
    Print n_start n_messages field_separator t = Some (out, n) ->
    let size := Z.of_nat (length (Messages t)) in
    let count := if n_messages <? 0 then size else n_messages in
    n = Z.max 0 (Z.min count (size - n_start))
    /\ 0 <= n <= size
    /\ Z.of_nat (length out) = (if decide (Messages t = []) then 0 else 1) + 1 + n.
Proof.
  intros ext n_start n_messages sep t out n Hstart Hmax H. cbn zeta.
  unfold Print in H. destruct (Z.ltb_spec n_start 0); [lia |].
  destruct (PrintHeader sep t) as [[header hl]|] eqn:Hheader; [|done].
  cbn [mbind option_bind] in H.
  destruct (dashed_rule hl) as [rule|]; [|done]. cbn [mbind option_bind] in H.
  set (count := if n_messages <? 0 then Z.of_nat (length (Messages t)) else n_messages) in *.
  assert (0 <= count) as Hcount by (subst count; destruct (Z.ltb_spec n_messages 0); lia).
  rewrite to_int_id in H by (unfold INT_MIN, INT_MAX in *; lia).
  rewrite print_messages_spec in H by lia. cbn [mbind option_bind] in H.
  injection H as <- <-.
  rewrite !length_app, length_take, length_drop. cbn [length].
  unfold record_lines. rewrite length_imap, length_take, length_drop.
  assert (length header = if decide (Messages t = []) then 0%nat else 1%nat) as ->.
  { case_decide as Hnil.
    - rewrite PrintHeader_no_messages in Hheader by done. by injection Hheader as <- _.
    - by destruct (PrintHeader_one_line _ _ _ _ Hnil Hheader) as [? ->]. }
  case_decide; lia.
Qed.

(** ** More on [Print]: pages *)

Section PrintPages.
Context {ext : Externals}.

(** [Print] with a count that is not negative, where it is defined. *)
Lemma Print_count field_separator t n_start count header header_length :
  0 <= n_start -> 0 <= count -> n_start + count <= INT_MAX ->
  PrintHeader field_separator t = Some (header, header_length) ->
  0 <= header_length ->
  let selected := take (Z.to_nat count) (drop (Z.to_nat n_start) (Messages t)) in
  Print n_start count field_separator t
  = Some (header ++ [string_fill (Z.to_nat header_length) "-"%char]
          ++ record_lines field_separator t n_start selected,
          Z.of_nat (length selected)).
Proof.
  intros Hstart Hcount Hmax Hheader Hlen. cbn zeta. unfold Print.
  destruct (Z.ltb_spec n_start 0); [lia |].
  destruct (Z.ltb_spec count 0); [lia |].
  rewrite Hheader. cbn [mbind option_bind].
  unfold dashed_rule. destruct (Z.ltb_spec header_length 0); [lia |].
  cbn [mbind option_bind].
  rewrite to_int_id by (unfold INT_MIN, INT_MAX in *; lia).
  rewrite print_messages_spec by lia. cbn [mbind option_bind].
  replace (n_start + count - n_start) with count by lia.
  by rewrite Z.add_0_l.
Qed.

Lemma record_lines_length field_separator t n_start (ms : list Message) :
  length (record_lines field_separator t n_start ms) = length ms.
Proof. unfold record_lines. apply length_imap. Qed.

(** The lines of two stretches of records that follow each other. *)
Lemma record_lines_pages field_separator t n_start a b (ms : list Message) :
  0 <= n_start -> 0 <= a -> 0 <= b ->
  record_lines field_separator t n_start
    (take (Z.to_nat (a + b)) (drop (Z.to_nat n_start) ms))
  = record_lines field_separator t n_start
      (take (Z.to_nat a) (drop (Z.to_nat n_start) ms))
    ++ record_lines field_separator t (n_start + a)
         (take (Z.to_nat b) (drop (Z.to_nat (n_start + a)) ms)).
Proof.
  intros Hstart Ha Hb.
  replace (Z.to_nat (a + b)) with (Z.to_nat a + Z.to_nat b)%nat by lia.
  rewrite <- take_take_drop, drop_drop.
  replace (Z.to_nat n_start + Z.to_nat a)%nat with (Z.to_nat (n_start + a)) by lia.
  unfold record_lines. rewrite imap_app. f_equal.
  destruct (Nat.le_gt_cases (Z.to_nat a) (length (drop (Z.to_nat n_start) ms)))
    as [Hfull|Hshort].
  - apply imap_ext. intros j m _. cbn beta. rewrite length_take. f_equal. lia.
  - rewrite length_drop in Hshort.
    rewrite (drop_ge ms (Z.to_nat (n_start + a))) by lia. by rewrite take_nil.
Qed.

End PrintPages.

(** X14.  Printing in pages shows what printing at once shows: where the
    header can be printed and the indices are [int]s, the record lines of
    [Print(n_start, a + b)] are those of [Print(n_start, a)] followed by
    those of [Print(n_start + a, b)], under the same header and rule, and
    the returned counts add up. *)
Theorem Print_pages_compose :
  forall (ext : Externals) (n_start a b : Z) (field_separator : string) (t : Topic)
         (header : list string) (header_length : Z),
    0 <= n_start -> 0 <= a -> 0 <= b ->
    n_start + a + b <= INT_MAX ->
    PrintHeader field_separator t = Some (header, header_length) ->
    0 <= header_length ->
    exists lines1 lines2,
      Print n_start a field_separator t
      = Some (header ++ [string_fill (Z.to_nat header_length) "-"%char] ++ lines1,
              Z.of_nat (length lines1))
      /\ Print (n_start + a) b field_separator t
         = Some (header ++ [string_fill (Z.to_nat header_length) "-"%char] ++ lines2,
                 Z.of_nat (length lines2))
      /\ Print n_start (a + b) field_separator t
         = Some (header ++ [string_fill (Z.to_nat header_length) "-"%char]
                 ++ lines1 ++ lines2,
                 Z.of_nat (length lines1) + Z.of_nat (length lines2)).
Proof.
  intros ext n_start a b sep t header hl Hstart Ha Hb Hmax Hheader Hlen.
  exists (record_lines sep t n_start
            (take (Z.to_nat a) (drop (Z.to_nat n_start) (Messages t)))),
         (record_lines sep t (n_start + a)
            (take (Z.to_nat b) (drop (Z.to_nat (n_start + a)) (Messages t)))).
  rewrite !record_lines_length.
  rewrite (Print_count sep t n_start a header hl) by (done || lia).
  rewrite (Print_count sep t (n_start + a) b header hl) by (done || lia).
  rewrite (Print_count sep t n_start (a + b) header hl) by (done || lia).
  split; [done |]. split; [done |].
  rewrite record_lines_pages by done. f_equal. f_equal.
  rewrite <- Nat2Z.inj_add, <- length_app. f_equal. f_equal.
  replace (Z.to_nat (a + b)) with (Z.to_nat a + Z.to_nat b)%nat by lia.
  rewrite <- take_take_drop, drop_drop.
  by replace (Z.to_nat n_start + Z.to_nat a)%nat with (Z.to_nat (n_start + a)) by lia.
Qed.

(** X15.  A count that reaches the end of the records prints what a
    negative count prints: for [n_start] not negative and [n_messages] at
    least the number of records from [n_start] on, [Print(n_start,
    n_messages)] and [Print(n_start, -1)] are the same, lines and returned
    count, as long as their index sums are [int]s. *)
Theorem Print_large_count_is_all :
  forall (ext : Externals) (n_start n_messages : Z) (field_separator : string)
         (t : Topic),
    0 <= n_start ->
    Z.of_nat (length (Messages t)) - n_start <= n_messages ->
    0 <= n_messages ->
    n_start + n_messages <= INT_MAX ->
    n_start + Z.of_nat (length (Messages t)) <= INT_MAX ->
    Print n_start n_messages field_separator t = Print n_start (-1) field_separator t.
Proof.
  intros ext n_start n_messages sep t Hstart Hall Hcount Hmax Hmax'.
  unfold Print. destruct (Z.ltb_spec n_start 0); [lia |].
  destruct (Z.ltb_spec n_messages 0); [lia |]. cbn [Z.ltb Z.compare].
  destruct (PrintHeader sep t) as [[header hl]|]; [|done]. cbn [mbind option_bind].
  destruct (dashed_rule hl) as [rule|]; [|done]. cbn [mbind option_bind].
  rewrite !to_int_id by (unfold INT_MIN, INT_MAX in *; lia).
  rewrite !print_messages_spec by lia. cbn [mbind option_bind].
  rewrite !take_ge by (rewrite length_drop; lia). done.
Qed.

(** ** More runs on the reference instance *)

Section ReferenceRunsMore.
Import Reference.
Local Existing Instance ref_externals.

(** X3 on a file whose first data row lacks two tokens. *)
Lemma fitting_rows_all_become_messages_witness :
  Forall (fits (Tokenize "a,b,c" CSVDelimiter)) ["1"; "1,2,3"]
  /\ (let labels := Tokenize "a,b,c" CSVDelimiter in
      let padded row :=
        Tokenize row CSVDelimiter
        ++ replicate (length labels - length (Tokenize row CSVDelimiter)) "" in
      let r := ReadFromFile "topic.csv" (Some ("a,b,c" :: ["1"; "1,2,3"]))
                 (new_Topic "N/A") in
      status r = true
      /\ cerr r = []
      /\ Messages (loaded r)
         = map (fun row => row_msg (Message_TokensToMessage (padded row) labels))
             ["1"; "1,2,3"]
      /\ length (Messages (loaded r)) = length ["1"; "1,2,3"]
      /\ Forall (fun row => length (padded row) = length labels) ["1"; "1,2,3"]).
Proof.
  assert (Forall (fits (Tokenize "a,b,c" CSVDelimiter)) ["1"; "1,2,3"]) as Hfit
    by (repeat (first [apply Forall_nil_2 | apply Forall_cons_2; [vm_compute; lia |]])).
  split; [exact Hfit |].
  exact (fitting_rows_all_become_messages ref_externals "topic.csv" "a,b,c"
           ["1"; "1,2,3"] (new_Topic "N/A") Hfit).
Defined.

(** The record of the short row has empty strings for the two columns it
    lacks. *)
Example short_row_record :
  Messages (loaded (ReadFromFile "topic.csv" (Some ["a,b,c"; "1"]) (new_Topic "N/A")))
  = [mkRefMessage "" "" "" "" ["1"; ""; ""]].
Proof. vm_compute. done. Qed.

(** X5 on [triple_topic]: a reload through the topic's own [FileName],
    which is empty by the time it is opened. *)
Lemma failed_load_empties_the_topic_witness :
  status (ReadFromFile TopicFileName None triple_topic) = false
  /\ loaded (ReadFromFile TopicFileName None triple_topic)
     = {| Name := Name triple_topic; FileName := ""; FieldLabels := [];
          Messages := []; is_initialized := false; is_fault_topic := false;
          len_seqid := 0; len_stamp := 0; len_frameid := 0; len_fields := [];
          orig_field_labels := []; has_header := false |}.
Proof.
  assert (status (ReadFromFile TopicFileName None triple_topic) = false) as Hfail
    by reflexivity.
  split; [exact Hfail |].
  exact (failed_load_empties_the_topic ref_externals TopicFileName None triple_topic
           Hfail).
Defined.

(** What such a reload writes: the file name it shows is empty. *)
Example reload_through_own_FileName :
  FileName triple_topic = "topic.csv"
  /\ cerr (ReadFromFile TopicFileName None triple_topic) = ["Failed to open '' file."].
Proof. vm_compute. done. Qed.

(** C7, counterexample.  On a topic loaded from a header line and no data
    row, [Print(0, -1)] writes no header line: the output is the empty
    rule alone. *)
Lemma Print_without_records_prints_no_header :
  let t := loaded (ReadFromFile "topic.csv" (Some header_only_file) (new_Topic "N/A")) in
  IsInitialized t = true
  /\ Messages t = []
  /\ PrintHeader " | " t = Some ([], 0)
  /\ Print 0 (-1) " | " t = Some ([""], 0).
Proof. vm_compute. done. Qed.

(** X9 on [triple_file] and its second data row. *)
Lemma widths_cover_every_row_witness :
  Forall (fits (Tokenize
                  "%time,field.header.seq,field.header.stamp,field.header.frame_id,field.x"
                  CSVDelimiter))
    ["1537285151280629639,1,500,odom,3.14"; "1537285151280629640,2,501,odom,-13.14159"]
  /\ "1537285151280629640,2,501,odom,-13.14159"
     ∈ ["1537285151280629639,1,500,odom,3.14"; "1537285151280629640,2,501,odom,-13.14159"]
  /\ (let rw :=
        row_record
          (Tokenize
             "%time,field.header.seq,field.header.stamp,field.header.frame_id,field.x"
             CSVDelimiter)
          "1537285151280629640,2,501,odom,-13.14159" in
      l_seq rw <= len_seqid triple_topic
      /\ l_stamp rw <= len_stamp triple_topic
      /\ l_frid rw <= len_frameid triple_topic
      /\ (forall (j : nat) (w : Z),
            l_fields rw !! j = Some w ->
            exists b, len_fields triple_topic !! j = Some b /\ w <= b)).
Proof.
  assert (Forall (fits (Tokenize
                  "%time,field.header.seq,field.header.stamp,field.header.frame_id,field.x"
                  CSVDelimiter))
            ["1537285151280629639,1,500,odom,3.14";
             "1537285151280629640,2,501,odom,-13.14159"]) as Hfit
    by (repeat (first [apply Forall_nil_2 | apply Forall_cons_2; [vm_compute; lia |]])).
  assert ("1537285151280629640,2,501,odom,-13.14159"
          ∈ ["1537285151280629639,1,500,odom,3.14";
             "1537285151280629640,2,501,odom,-13.14159"]) as Hin
    by (repeat constructor).
  split; [exact Hfit |]. split; [exact Hin |].
  exact (widths_cover_every_row ref_externals "topic.csv"
           "%time,field.header.seq,field.header.stamp,field.header.frame_id,field.x"
           ["1537285151280629639,1,500,odom,3.14";
            "1537285151280629640,2,501,odom,-13.14159"]
           (new_Topic "failure_status-engines")
           "1537285151280629640,2,501,odom,-13.14159" Hfit Hin).
Defined.

(** X10: [plain_file], and [plain_file] with a row of a wider field. *)
Lemma more_rows_never_narrow_a_column_witness :
  Forall (fits (Tokenize "%time,field.x" CSVDelimiter)) ["1537285151280629639,3.14"]
  /\ widths_le
       (loaded (ReadFromFile "topic.csv"
                  (Some ("%time,field.x" :: ["1537285151280629639,3.14"]))
                  (new_Topic "N/A")))
       (loaded (ReadFromFile "topic.csv"
                  (Some ("%time,field.x"
                         :: ["1537285151280629639,3.14"]
                            ++ ["1537285151280629640,-13.14159"]))
                  (new_Topic "N/A"))).
Proof.
  assert (Forall (fits (Tokenize "%time,field.x" CSVDelimiter))
            ["1537285151280629639,3.14"]) as Hfit
    by (repeat (first [apply Forall_nil_2 | apply Forall_cons_2; [vm_compute; lia |]])).
  split; [exact Hfit |].
  exact (more_rows_never_narrow_a_column ref_externals "topic.csv" "%time,field.x"
           ["1537285151280629639,3.14"] ["1537285151280629640,-13.14159"]
           (new_Topic "N/A") Hfit).
Defined.

(** X11 on [overflow_file], whose load stops at its second data row. *)
Lemma PrintHeader_reads_in_range_after_a_load_witness :
  (forall tokens,
     length tokens = length (Tokenize "a,b" CSVDelimiter) ->
     length (l_fields (Message_TokensToMessage tokens (Tokenize "a,b" CSVDelimiter)))
     = length (normalized_labels (Tokenize "a,b" CSVDelimiter)))
  /\ (let t' := loaded (ReadFromFile "topic.csv" (Some ("a,b" :: ["1,2"; "1,2,3"; "4,5"]))
                          (new_Topic "N/A")) in
      is_Some (PrintHeader " | " t')
      /\ (Messages t' = [] \/ length (FieldLabels t') = length (len_fields t'))).
Proof.
  assert (forall tokens,
            length tokens = length (Tokenize "a,b" CSVDelimiter) ->
            length (l_fields (Message_TokensToMessage tokens
                                (Tokenize "a,b" CSVDelimiter)))
            = length (normalized_labels (Tokenize "a,b" CSVDelimiter))) as Hbuilder
    by (intros [|a [|b [|c tokens]]] H; try (cbv in H; discriminate); reflexivity).
  split; [exact Hbuilder |].
  exact (PrintHeader_reads_in_range_after_a_load ref_externals "topic.csv" "a,b"
           ["1,2"; "1,2,3"; "4,5"] (new_Topic "N/A") " | " Hbuilder).
Defined.

(** X12 on [plain_topic]: 69 = 40 - 0 + (5 + 10 + 5 + 3 * 3). *)
Lemma PrintHeader_returned_length_witness :
  Messages plain_topic = [mkRefMessage "1537285151280629639" "" "" "" ["3.14"]]
  /\ PrintHeader " | " plain_topic
     = Some ([" | Index |     Date/Time Stamp |    x | "], 69)
  /\ 69 = to_int (Z.of_nat (String.length " | Index |     Date/Time Stamp |    x | ")
                  - (Z.max (Z.of_nat (String.length
                                        (DateTime_ToString
                                           (mkRefMessage "1537285151280629639" "" "" ""
                                              ["3.14"])))) 15
                     - Z.of_nat (String.length
                                   (DateTime_ToString
                                      (mkRefMessage "1537285151280629639" "" "" ""
                                         ["3.14"]))))
                  + (if HasHeaderField plain_topic then 0
                     else len_seqid plain_topic + len_stamp plain_topic
                          + len_frameid plain_topic
                          + 3 * Z.of_nat (String.length " | "))).
Proof.
  assert (Messages plain_topic
          = [mkRefMessage "1537285151280629639" "" "" "" ["3.14"]]) as HM
    by reflexivity.
  assert (PrintHeader " | " plain_topic
          = Some ([" | Index |     Date/Time Stamp |    x | "], 69)) as Hheader
    by (vm_compute; reflexivity).
  split; [exact HM |]. split; [exact Hheader |].
  exact (PrintHeader_returned_length ref_externals "topic.csv" "%time,field.x"
           ["1537285151280629639,3.14"] (new_Topic "N/A") " | "
           " | Index |     Date/Time Stamp |    x | "
           (mkRefMessage "1537285151280629639" "" "" "" ["3.14"]) [] 69 HM Hheader).
Defined.

(** X13 on [triple_topic]: [Print(1, 5)] returns min(5, 2 - 1). *)
Lemma Print_return_value_witness :
  0 <= 1
  /\ 1 + (if 5 <? 0 then Z.of_nat (length (Messages triple_topic)) else 5) <= INT_MAX
  /\ Print 1 5 " | " triple_topic
     = Some ([" | Index |     Date/Time Stamp | SeqID | Time Stamp | Frame |         x | ";
              "--------------------------------------------------------------------------";
              " |     1 | 1537285151280629640 |     2 |        501 |  odom | -13.14159 | "],
             1)
  /\ (let size := Z.of_nat (length (Messages triple_topic)) in
      let count := if 5 <? 0 then size else 5 in
      1 = Z.max 0 (Z.min count (size - 1))
      /\ 0 <= 1 <= size
      /\ Z.of_nat (length
           [" | Index |     Date/Time Stamp | SeqID | Time Stamp | Frame |         x | ";
            "--------------------------------------------------------------------------";
            " |     1 | 1537285151280629640 |     2 |        501 |  odom | -13.14159 | "])
         = (if decide (Messages triple_topic = []) then 0 else 1) + 1 + 1).
Proof.
  assert (0 <= 1) as Hstart by (vm_compute; discriminate).
  assert (1 + (if 5 <? 0 then Z.of_nat (length (Messages triple_topic)) else 5)
          <= INT_MAX) as Hmax by (vm_compute; discriminate).
  assert (Print 1 5 " | " triple_topic
          = Some ([" | Index |     Date/Time Stamp | SeqID | Time Stamp | Frame |         x | ";
                   "--------------------------------------------------------------------------";
                   " |     1 | 1537285151280629640 |     2 |        501 |  odom | -13.14159 | "],
                  1)) as Hprint by (vm_compute; reflexivity).
  split; [exact Hstart |]. split; [exact Hmax |]. split; [exact Hprint |].
  exact (Print_return_value ref_externals 1 5 " | " triple_topic _ 1 Hstart Hmax Hprint).
Defined.

(** X14 on [triple_topic]: two pages of one record. *)
Lemma Print_pages_compose_witness :
  0 <= 0 /\ 0 <= 1 /\ 0 <= 1 /\ 0 + 1 + 1 <= INT_MAX
  /\ PrintHeader " | " triple_topic
     = Some ([" | Index |     Date/Time Stamp | SeqID | Time Stamp | Frame |         x | "],
             74)
  /\ 0 <= 74
  /\ exists lines1 lines2,
       Print 0 1 " | " triple_topic
       = Some ([" | Index |     Date/Time Stamp | SeqID | Time Stamp | Frame |         x | "]
               ++ [string_fill (Z.to_nat 74) "-"%char] ++ lines1,
               Z.of_nat (length lines1))
       /\ Print (0 + 1) 1 " | " triple_topic
          = Some ([" | Index |     Date/Time Stamp | SeqID | Time Stamp | Frame |         x | "]
                  ++ [string_fill (Z.to_nat 74) "-"%char] ++ lines2,
                  Z.of_nat (length lines2))
       /\ Print 0 (1 + 1) " | " triple_topic
          = Some ([" | Index |     Date/Time Stamp | SeqID | Time Stamp | Frame |         x | "]
                  ++ [string_fill (Z.to_nat 74) "-"%char] ++ lines1 ++ lines2,
                  Z.of_nat (length lines1) + Z.of_nat (length lines2)).
Proof.
  assert (0 <= 0) as H0 by (vm_compute; discriminate).
  assert (0 <= 1) as H1 by (vm_compute; discriminate).
  assert (0 + 1 + 1 <= INT_MAX) as Hmax by (vm_compute; discriminate).
  assert (PrintHeader " | " triple_topic
          = Some ([" | Index |     Date/Time Stamp | SeqID | Time Stamp | Frame |         x | "],
                  74)) as Hheader by (vm_compute; reflexivity).
  assert (0 <= 74) as Hlen by (vm_compute; discriminate).
  split; [exact H0 |]. split; [exact H1 |]. split; [exact H1 |].
  split; [exact Hmax |]. split; [exact Hheader |]. split; [exact Hlen |].
  exact (Print_pages_compose ref_externals 0 1 1 " | " triple_topic _ 74
           H0 H1 H1 Hmax Hheader Hlen).
Defined.

(** X15 on [triple_topic]: [Print(1, 7)] and [Print(1, -1)]. *)
Lemma Print_large_count_is_all_witness :
  0 <= 1
  /\ Z.of_nat (length (Messages triple_topic)) - 1 <= 7
  /\ 0 <= 7
  /\ 1 + 7 <= INT_MAX
  /\ 1 + Z.of_nat (length (Messages triple_topic)) <= INT_MAX
  /\ Print 1 7 " | " triple_topic = Print 1 (-1) " | " triple_topic.
Proof.
  assert (0 <= 1) as Hstart by (vm_compute; discriminate).
  assert (Z.of_nat (length (Messages triple_topic)) - 1 <= 7) as Hall
    by (vm_compute; discriminate).
  assert (0 <= 7) as Hcount by (vm_compute; discriminate).
  assert (1 + 7 <= INT_MAX) as Hmax by (vm_compute; discriminate).
  assert (1 + Z.of_nat (length (Messages triple_topic)) <= INT_MAX) as Hmax'
    by (vm_compute; discriminate).
  split; [exact Hstart |]. split; [exact Hall |]. split; [exact Hcount |].
  split; [exact Hmax |]. split; [exact Hmax' |].
  exact (Print_large_count_is_all ref_externals 1 7 " | " triple_topic
           Hstart Hall Hcount Hmax Hmax').
Defined.

End ReferenceRunsMore.
